(** * The product REST API: validation chains, router and CORS gate

    A shallow embedding of [src/router.ts] and [src/server.ts].  Requests
    carry a JSON body as Express hands it to the route ([req.body]), the
    validation chains are the ones the router declares, and the table of
    products is a finite map from primary keys to rows. *)

From Stdlib Require Import ZArith String Ascii List Bool Lia DecimalString.
From Stdlib Require Import DecimalPos.
From stdpp Require Import base option list sorting gmap strings.

#[local] Set Warnings "-register-all".

Local Open Scope string_scope.
Local Open Scope Z_scope.

(** ** JavaScript values of a parsed JSON body *)

(** A value of [req.body] after [express.json()].  Strings are kept as the
    UTF-8 bytes of the request.  [JNum n] is the number an integer literal
    [n] of the JSON text parses to, that is the double nearest to [n]
    (infinite from 2^1024 - 2^970 up), so that two integers with the same
    nearest double stand for the same number.  Numbers with a fractional
    part are outside this type: what is proved of every value below is
    proved of integer numbers only.  [JObj] lists the own properties of an
    object in the order of the text, a later one overriding an earlier one of
    the same name.  [undefined] (an absent field) is [None] of
    [option Json]. *)
Inductive Json : Type :=
  | JNull
  | JBool (b : bool)
  | JNum (n : Z)
  | JStr (s : string)
  | JArr (items : list Json)
  | JObj (fields : list (string * Json)).

Abbreviation JsValue := (option Json).
Abbreviation Body := (gmap string Json).

(** The own property of an object under a name. *)
Fixpoint getOwn (key : string) (fields : list (string * Json)) : option Json :=
  match fields with
  | [] => None
  | (k, v) :: rest =>
      match getOwn key rest with
      | Some later => Some later
      | None => if String.eqb k key then Some v else None
      end
  end.

(** [ToBoolean]: [null], [false], zero and the empty string are falsy. *)
Definition truthy (v : Json) : bool :=
  match v with
  | JNull => false
  | JBool b => b
  | JNum n => negb (n =? 0)
  | JStr EmptyString => false
  | JStr (String _ _) | JArr _ | JObj _ => true
  end.

(** *** [Number::toString] on integer values *)

(** The decimal numeral of an integer. *)
Definition decimal (n : Z) : string :=
  NilZero.string_of_int (Z.to_int n).

(** Around a magnitude [a] the doubles are the multiples of [2 ^ k] for this
    [k]: all integers up to 2^53, and 53 significant bits above. *)
Definition spacingExponent (a : Z) : Z := Z.max 0 (Z.log2 a - 52).

(** The double nearest to a positive integer, ties to the even
    significand. *)
Definition nearestDouble (a : Z) : Z :=
  let k := spacingExponent a in
  let q := a / 2 ^ k in
  let r := a mod 2 ^ k in
  if (2 ^ k <? 2 * r) || ((2 * r =? 2 ^ k) && Z.odd q)
  then (q + 1) * 2 ^ k else q * 2 ^ k.

(** Whether the integer [c] is read back as the double [d] (above 2^53):
    [c] lies between the midpoints to the neighbours of [d], the midpoints
    included when the significand of [d] is even.  Below a power of two the
    neighbour is half as far.  All quantities are scaled by 4. *)
Definition roundsTo (d c : Z) : bool :=
  let k := spacingExponent d in
  let q := d / 2 ^ k in
  let below := if q =? 2 ^ 52 then 2 ^ k else 2 ^ (k + 1) in
  let above := 2 ^ (k + 1) in
  if Z.even q then (4 * d - below <=? 4 * c) && (4 * c <=? 4 * d + above)
  else (4 * d - below <? 4 * c) && (4 * c <? 4 * d + above).

(** Among the two multiples of [p] around [d], the one that is read back as
    [d]; the closer one if both are, the one with the even digit on a tie. *)
Definition pick (d p : Z) : option Z :=
  let low := d / p * p in
  let high := low + p in
  match roundsTo d low, roundsTo d high with
  | true, true =>
      if d - low <? high - d then Some low
      else if high - d <? d - low then Some high
      else if Z.even (d / p) then Some low else Some high
  | true, false => Some low
  | false, true => Some high
  | false, false => None
  end.

(** The integer with the fewest significant digits that is read back as
    [d]: the most trailing zeros are tried first. *)
Fixpoint shortestFrom (d : Z) (zeros : nat) : Z :=
  match pick d (10 ^ Z.of_nat zeros) with
  | Some c => c
  | None =>
      match zeros with
      | O => d
      | S fewer => shortestFrom d fewer
      end
  end.

Fixpoint stripZeros (s : string) : string :=
  match s with
  | EmptyString => EmptyString
  | String c r =>
      match stripZeros r with
      | EmptyString => if Ascii.eqb c "0" then EmptyString else String c EmptyString
      | more => String c more
      end
  end.

(** The exponent form: the first digit, the further digits after a dot if
    there are any, and [e+] with the decimal exponent. *)
Definition exponential (c : Z) : string :=
  match decimal c with
  | EmptyString => EmptyString
  | String a rest =>
      let e := decimal (Z.of_nat (String.length rest)) in
      match stripZeros rest with
      | EmptyString => String a (String "e" (String "+" e))
      | more => String a (String "." (more ++ String "e" (String "+" e)))
      end
  end.

(** The text of a finite double above 2^53: its shortest digits, with zeros
    up to the units below 10^21 and in exponent form from there on. *)
Definition printDouble (d : Z) : string :=
  let c := shortestFrom d (String.length (decimal d)) in
  if c <? 10 ^ 21 then decimal c else exponential c.

(** [String(n)] for the number of an integer literal.  Up to 2^53 every
    integer is a double and prints as its decimal numeral. *)
Definition numberToString (n : Z) : string :=
  if Z.abs n <=? 2 ^ 53 then decimal n
  else
    let d := nearestDouble (Z.abs n) in
    let text := if 2 ^ 1024 <=? d then "Infinity" else printDouble d in
    if n <? 0 then String "-" text else text.

(** [Array.prototype.join(",")] once the elements are printed. *)
Fixpoint joinComma (l : list string) : string :=
  match l with
  | [] => ""
  | [s] => s
  | s :: rest => s ++ "," ++ joinComma rest
  end.

(** [ToString(v)]; [None] is a [TypeError].  An array is joined with
    commas, [null] printing as the empty string inside it.  An object is
    converted by its [toString] method: the inherited one gives
    ["[object Object]"], but an own property of that name, which is never a
    function in a parsed body, hides it, and then no method is left to
    convert the object. *)
Fixpoint jsString (v : Json) : option string :=
  match v with
  | JNull => Some "null"
  | JBool true => Some "true"
  | JBool false => Some "false"
  | JNum n => Some (numberToString n)
  | JStr s => Some s
  | JArr items =>
      joinComma <$>
        ((fix each (l : list Json) : option (list string) :=
            match l with
            | [] => Some []
            | x :: r =>
                match (match x with JNull => Some "" | _ => jsString x end) with
                | Some s =>
                    match each r with
                    | Some texts => Some (s :: texts)
                    | None => None
                    end
                | None => None
                end
            end) items)
  | JObj fields =>
      match getOwn "toString" fields with
      | Some _ => None
      | None => Some "[object Object]"
      end
  end.

(** express-validator's [toString] (utils); [None] is a [TypeError].
    [undefined] and [null] become the empty string.  An object whose
    [toString] is truthy is printed by that method, or by the one of its
    prototype when the property is not a function; when the property is
    falsy the code reaches [isNaN(value)], which cannot convert the object.
    Everything else goes through [String]. *)
Definition toString (v : JsValue) : option string :=
  match v with
  | None => Some ""
  | Some JNull => Some ""
  | Some (JObj fields) =>
      match getOwn "toString" fields with
      | Some own => if truthy own then Some "[object Object]" else None
      | None => Some "[object Object]"
      end
  | Some x => jsString x
  end.

(** ** The validators of validator.js used by the router *)

Definition isDigit (c : ascii) : bool :=
  let n := nat_of_ascii c in (48 <=? n)%nat && (n <=? 57)%nat.

Definition isSign (c : ascii) : bool :=
  match c with
  | "+"%char | "-"%char => true
  | _ => false
  end.

Fixpoint allDigits (s : string) : bool :=
  match s with
  | EmptyString => true
  | String c r => isDigit c && allDigits r
  end.

(** One or more decimal digits up to the end of the string: [[0-9]+$]. *)
Definition digits1 (s : string) : bool :=
  match s with
  | EmptyString => false
  | String _ _ => allDigits s
  end.

Definition dropSign (s : string) : string :=
  match s with
  | String c r => if isSign c then r else s
  | EmptyString => s
  end.

(** [isInt(str)] with no options: the regular expression
    [/^[-+]?[0-9]+$/] (leading zeroes are allowed by default). *)
Definition isInt (s : string) : bool := digits1 (dropSign s).

(** The string after its longest prefix of decimal digits. *)
Fixpoint skipDigits (s : string) : string :=
  match s with
  | String c r => if isDigit c then skipDigits r else s
  | EmptyString => s
  end.

(** [isNumeric(str)] with no options: the regular expression
    [/^[+-]?([0-9]*[.])?[0-9]+$/]. *)
Definition isNumeric (s : string) : bool :=
  let r := dropSign s in
  match skipDigits r with
  | EmptyString => digits1 r
  | String "."%char frac => digits1 frac
  | String _ _ => false
  end.

(** [isEmpty(str)] with no options: [str.length === 0]. *)
Definition isEmpty (s : string) : bool :=
  match s with
  | EmptyString => true
  | String _ _ => false
  end.

(** [isBoolean(str)] with no options (strict):
    [['true', 'false', '1', '0'].includes(str)]. *)
Definition isBoolean (s : string) : bool :=
  existsb (String.eqb s) ["true"; "false"; "1"; "0"].

(** ** JavaScript's [value > 0] on a body value

    The custom validator of the [price] chain is [value => value > 0], applied
    to the raw field.  The comparison converts its left operand with
    [ToNumber]; for a string that is [StringToNumber] of ECMA-262. *)

(** The value of a numeric string before it is rounded to a double:
    [mantissa * 10 ^ exp10], with its sign. *)
Inductive JsNumber : Type :=
  | NaN
  | Infinite (negative : bool)
  | Finite (negative : bool) (mantissa : N) (exp10 : Z).

Definition bytes (l : list nat) : string :=
  fold_right (fun n s => String (ascii_of_nat n) s) EmptyString l.

(** [StrWhiteSpaceChar]: white space and line terminators, in UTF-8:
    TAB, LF, VT, FF, CR, SP, U+00A0, U+1680, U+2000..U+200A, U+2028, U+2029,
    U+202F, U+205F, U+3000, U+FEFF. *)
Definition whiteSpace : list (list nat) :=
  [ [9]; [10]; [11]; [12]; [13]; [32]; [194; 160]; [225; 154; 128];
    [226; 128; 128]; [226; 128; 129]; [226; 128; 130]; [226; 128; 131];
    [226; 128; 132]; [226; 128; 133]; [226; 128; 134]; [226; 128; 135];
    [226; 128; 136]; [226; 128; 137]; [226; 128; 138]; [226; 128; 168];
    [226; 128; 169]; [226; 128; 175]; [226; 129; 159]; [227; 128; 128];
    [239; 187; 191] ]%nat.

Fixpoint dropPrefix (p s : string) : option string :=
  match p, s with
  | EmptyString, _ => Some s
  | String a p', String b s' =>
      if Ascii.eqb a b then dropPrefix p' s' else None
  | String _ _, EmptyString => None
  end.

Fixpoint stripFirst (ps : list string) (s : string) : option string :=
  match ps with
  | [] => None
  | p :: rest =>
      match dropPrefix p s with
      | Some r => Some r
      | None => stripFirst rest s
      end
  end.

Fixpoint stripAll (fuel : nat) (ps : list string) (s : string) : string :=
  match fuel with
  | O => s
  | S k =>
      match stripFirst ps s with
      | Some r => stripAll k ps r
      | None => s
      end
  end.

Definition whiteSpaceCodes : list string := map bytes whiteSpace.

(** The string is white space from here to its end. *)
Definition allWhiteSpace (s : string) : bool :=
  isEmpty (stripAll (String.length s) whiteSpaceCodes s).

Fixpoint trimEnd (s : string) : string :=
  match s with
  | EmptyString => EmptyString
  | String c r => if allWhiteSpace s then EmptyString else String c (trimEnd r)
  end.

(** [String.prototype.trim]: white space is dropped at both ends. *)
Definition trim (s : string) : string :=
  trimEnd (stripAll (String.length s) whiteSpaceCodes s).

Fixpoint takeDigits (s : string) : string :=
  match s with
  | String c r => if isDigit c then String c (takeDigits r) else EmptyString
  | EmptyString => EmptyString
  end.

(** The value of a hexadecimal digit (also used for binary, octal and
    decimal numerals, with the radix as the bound). *)
Definition digitValue (c : ascii) : option N :=
  let n := N_of_ascii c in
  if (48 <=? n)%N && (n <=? 57)%N then Some (n - 48)%N
  else if (97 <=? n)%N && (n <=? 102)%N then Some (n - 87)%N
  else if (65 <=? n)%N && (n <=? 70)%N then Some (n - 55)%N
  else None.

(** A non-empty numeral in the given radix, read to the end of the string. *)
Fixpoint numeralFrom (radix acc : N) (s : string) : option N :=
  match s with
  | EmptyString => Some acc
  | String c r =>
      match digitValue c with
      | Some d =>
          if (d <? radix)%N then numeralFrom radix (acc * radix + d)%N r
          else None
      | None => None
      end
  end.

Definition numeral (radix : N) (s : string) : option N :=
  match s with
  | EmptyString => None
  | String _ _ => numeralFrom radix 0%N s
  end.

(** [ExponentPart], or nothing, up to the end of the string. *)
Definition exponentPart (s : string) : option Z :=
  match s with
  | EmptyString => Some 0
  | String c r =>
      if Ascii.eqb c "e" || Ascii.eqb c "E" then
        match r with
        | String "-"%char d => (fun n => - Z.of_N n) <$> numeral 10 d
        | String "+"%char d => Z.of_N <$> numeral 10 d
        | _ => Z.of_N <$> numeral 10 r
        end
      else None
  end.

(** [NonDecimalIntegerLiteral]: [0x], [0o] and [0b] numerals (no sign). *)
Definition nonDecimal (s : string) : option N :=
  match s with
  | String "0"%char (String c r) =>
      if Ascii.eqb c "x" || Ascii.eqb c "X" then numeral 16 r
      else if Ascii.eqb c "o" || Ascii.eqb c "O" then numeral 8 r
      else if Ascii.eqb c "b" || Ascii.eqb c "B" then numeral 2 r
      else None
  | _ => None
  end.

(** [StrUnsignedDecimalLiteral]: [Infinity], or digits with an optional
    fraction and an optional exponent, at least one digit before the
    exponent. *)
Definition unsignedDecimal (negative : bool) (s : string) : JsNumber :=
  if String.eqb s "Infinity" then Infinite negative
  else
    let whole := takeDigits s in
    let after := skipDigits s in
    let '(frac, rest) :=
      match after with
      | String "."%char t => (takeDigits t, skipDigits t)
      | _ => (EmptyString, after)
      end in
    if isEmpty whole && isEmpty frac then NaN
    else
      match numeralFrom 10 0 (whole ++ frac), exponentPart rest with
      | Some m, Some e => Finite negative m (e - Z.of_nat (String.length frac))
      | _, _ => NaN
      end.

(** [StringToNumber]: the trimmed text is empty (zero), a non-decimal
    integer, or a signed decimal literal; anything else is [NaN]. *)
Definition stringToNumber (s : string) : JsNumber :=
  let t := trim s in
  match t with
  | EmptyString => Finite false 0 0
  | String c r =>
      match nonDecimal t with
      | Some m => Finite false m 0
      | None =>
          if Ascii.eqb c "-" then unsignedDecimal true r
          else if Ascii.eqb c "+" then unsignedDecimal false r
          else unsignedDecimal false t
      end
  end.

(** Whether the double nearest to [m * 10 ^ e] is above zero: the value must
    exceed 2^-1075, half of the least positive double (the tie rounds to
    zero). *)
Definition roundsAboveZero (m : N) (e : Z) : bool :=
  if 0 <=? e then 0 <? Z.of_N m
  else 10 ^ (- e) <? Z.of_N m * 2 ^ 1075.

Definition isPositive (n : JsNumber) : bool :=
  match n with
  | NaN => false
  | Infinite negative => negb negative
  | Finite negative m e => negb negative && roundsAboveZero m e
  end.

(** [value > 0]: [undefined] converts to [NaN], [null] to 0, booleans to 0
    and 1, and an array or object goes through its [toString] first.  When
    that conversion raises, the custom validator that makes the comparison
    catches the error and counts the value as failing. *)
Definition greaterThanZero (v : JsValue) : bool :=
  match v with
  | None => false
  | Some JNull => false
  | Some (JBool b) => b
  | Some (JNum n) => 0 <? n
  | Some x =>
      match jsString x with
      | Some s => isPositive (stringToNumber s)
      | None => false
      end
  end.

(** ** Requests *)

(** The methods the router declares routes for, and [OPTIONS], the preflight
    that the CORS middleware answers itself. *)
Inductive Method : Type := GET | POST | PUT | PATCH | DELETE | OPTIONS.

(** The request path below the mount point [/api/products]: ["/"] or
    ["/:id"] with the text of the segment. *)
Inductive Path : Type :=
  | Root
  | Item (id : string).

Record Request : Type := {
  method : Method;
  url : Path;
  body : Body
}.

(** [req.params]: the route ["/:id"] binds [id] and nothing else. *)
Definition params (req : Request) (key : string) : option string :=
  match url req with
  | Item i => if String.eqb key "id" then Some i else None
  | Root => None
  end.

(** ** express-validator: chains, their run and the collected errors *)

Inductive Location : Type := InBody | InParams.

(** A field error as [validationResult(req).array()] lists it
    ([type] is always ['field']). *)
Record ValidationError : Type := {
  location : Location;
  path : string;
  value : JsValue;
  msg : string
}.

(** A standard validator sees the stringified value and may be negated; a
    custom validator sees the raw value. *)
Inductive Validation : Type :=
  | StandardValidation (validator : string -> bool) (negated : bool)
  | CustomValidation (validator : JsValue -> bool).

Record ContextItem : Type := {
  validation : Validation;
  message : string
}.

Record ValidationChain : Type := {
  chainLocation : Location;
  field : string;
  stack : list ContextItem
}.

Fixpoint setLastMessage (m : string) (items : list ContextItem) : list ContextItem :=
  match items with
  | [] => []
  | [it] => [{| validation := validation it; message := m |}]
  | it :: rest => it :: setLastMessage m rest
  end.

(** The chain API as the router uses it.  Each validator is pushed on the
    stack with the default message, and [withMessage] sets the message of
    the validator pushed last. *)
Module Chain.

Definition check (loc : Location) (f : string) : ValidationChain :=
  {| chainLocation := loc; field := f; stack := [] |}.

Definition body : string -> ValidationChain := check InBody.
Definition param : string -> ValidationChain := check InParams.

Definition add (v : Validation) (c : ValidationChain) : ValidationChain :=
  {| chainLocation := chainLocation c;
     field := field c;
     stack := stack c ++ [{| validation := v; message := "Invalid value" |}] |}.

Definition isInt : ValidationChain -> ValidationChain :=
  add (StandardValidation isInt false).
Definition isNumeric : ValidationChain -> ValidationChain :=
  add (StandardValidation isNumeric false).
Definition isBoolean : ValidationChain -> ValidationChain :=
  add (StandardValidation isBoolean false).
(** [notEmpty()] is [not().isEmpty()]. *)
Definition notEmpty : ValidationChain -> ValidationChain :=
  add (StandardValidation isEmpty true).
Definition custom (f : JsValue -> bool) : ValidationChain -> ValidationChain :=
  add (CustomValidation f).

Definition withMessage (m : string) (c : ValidationChain) : ValidationChain :=
  {| chainLocation := chainLocation c;
     field := field c;
     stack := setLastMessage m (stack c) |}.

End Chain.

Notation "c '|>' f" := (f c) (at level 45, left associativity, only parsing).

(** The field instance a chain selects from the request. *)
Definition selectField (loc : Location) (f : string) (req : Request) : JsValue :=
  match loc with
  | InBody => body req !! f
  | InParams => JStr <$> params req f
  end.

(** A standard validator on the values in turn: each is stringified and
    tested, and adds an error when it fails.  [None]: a stringification
    raised. *)
Fixpoint checkEach (validator : string -> bool) (negated : bool)
    (error : JsValue -> ValidationError) (values : list JsValue)
    : option (list ValidationError) :=
  match values with
  | [] => Some []
  | x :: rest =>
      match toString x with
      | None => None
      | Some text =>
          let result := validator text in
          match checkEach validator negated error rest with
          | None => None
          | Some errors =>
              Some (if (if negated then result else negb result)
                    then error x :: errors else errors)
          end
      end
  end.

(** One validator of a chain on the selected value.  A standard validator
    runs on every element when the value is an array; a custom validator
    runs once on the raw value.  Nothing stops the chain on a failing value:
    every validator of the stack runs.  [None]: the run raised. *)
Definition runItem (loc : Location) (f : string) (v : JsValue)
    (it : ContextItem) : option (list ValidationError) :=
  let error x :=
    {| location := loc; path := f; value := x; msg := message it |} in
  match validation it with
  | StandardValidation validator negated =>
      checkEach validator negated error
        match v with
        | Some (JArr items) => Some <$> items
        | _ => [v]
        end
  | CustomValidation validator =>
      Some (if validator v then [] else [error v])
  end.

Fixpoint runItems (loc : Location) (f : string) (v : JsValue)
    (items : list ContextItem) : option (list ValidationError) :=
  match items with
  | [] => Some []
  | it :: rest =>
      match runItem loc f v it with
      | None => None
      | Some errors =>
          match runItems loc f v rest with
          | None => None
          | Some more => Some (errors ++ more)%list
          end
      end
  end.

(** All the validators of a chain on the value it selected: the errors it
    leaves, or [None] when the run raised. *)
Definition runOn (c : ValidationChain) (v : JsValue)
    : option (list ValidationError) :=
  runItems (chainLocation c) (field c) v (stack c).

Definition runChain (c : ValidationChain) (req : Request)
    : option (list ValidationError) :=
  runOn c (selectField (chainLocation c) (field c) req).

(** ** Responses *)

Record Product : Type := {
  id : Z;
  name : string;
  price : Z;
  availability : bool
}.

(** What the API answers with: one of its JSON documents, or the error
    page of Express when an error reached [next(err)]. *)
Inductive Payload : Type :=
  | Data (row : Product)
  | DataList (rows : list Product)
  | DataText (text : string)
  | Error (text : string)
  | Errors (errors : list ValidationError)
  | ErrorPage.

Record Response : Type := {
  status : Z;
  json : Payload
}.

(** ** Middleware and persistence *)

(** Modelled from the spec: [handleInputErrors] of [src/middleware], which is
    not among the sources.  "If the list is non-empty, respond 400 with
    [{errors: [...]}] and stop further processing; otherwise pass control to
    the next stage unchanged."  [None] is the call of [next()]. *)
Definition handleInputErrors (errors : list ValidationError) : option Response :=
  match errors with
  | [] => None
  | _ :: _ => Some {| status := 400; json := Errors errors |}
  end.

(** The columns of a stored product; its key in the table is the [id]. *)
Record Row : Type := {
  rowName : string;
  rowPrice : Z;
  rowAvailability : bool
}.

Abbreviation Table := (gmap Z Row).

(** The order of the listing: by [id], ascending. *)
Definition byId (p q : Product) : Prop := id p <= id q.

#[global] Instance byId_dec : RelDecision byId :=
  fun p q => decide (id p <= id q).

Definition instance (i : Z) (r : Row) : Product :=
  {| id := i; name := rowName r; price := rowPrice r;
     availability := rowAvailability r |}.

Definition columns (p : Product) : Row :=
  {| rowName := name p; rowPrice := price p;
     rowAvailability := availability p |}.

(** The integer a key text denotes for the database: an optional sign and
    decimal digits. *)
Definition intOfString (s : string) : option Z :=
  match s with
  | String "-"%char d => (fun n => - Z.of_N n) <$> numeral 10 d
  | String "+"%char d => Z.of_N <$> numeral 10 d
  | _ => Z.of_N <$> numeral 10 s
  end.

(** Modelled from the spec: the persistence collaborator ([findAll],
    [findById], [create], [save], [destroy]) over an in-memory table.
    Absence is an empty result; storage-level failures are not part of this
    model. *)
Module Persistence.

Definition findByPk (t : Table) (key : string) : option Product :=
  i ← intOfString key; instance i <$> t !! i.

Definition save (p : Product) (t : Table) : Table := <[id p := columns p]> t.

Definition destroy (p : Product) (t : Table) : Table := delete (id p) t.

(** The key the storage generates: a positive integer above every key in
    use. *)
Definition newId (t : Table) : Z :=
  1 + map_fold (fun k _ acc => Z.max k acc) 0 t.

Definition create (r : Row) (t : Table) : Product * Table :=
  let p := instance (newId t) r in (p, save p t).

Definition findAll (t : Table) : list Product :=
  merge_sort byId
    ((fun kv => instance (fst kv) (snd kv)) <$> map_to_list t).

End Persistence.

Inductive Handler : Type :=
  | getProducts
  | getProductByID
  | createProduct
  | updateProduct
  | updateAvailability
  | deleteProduct.

(** What one request does: the table it leaves, the response ([None] when no
    declared route answered), and the handler that ran, if any. *)
Record Outcome : Type := {
  table : Table;
  response : option Response;
  invoked : option Handler
}.

(** One stage of a route, in the order [router.ts] lists them. *)
Inductive Middleware : Type :=
  | Validate (c : ValidationChain)
  | HandleInputErrors
  | Handle (h : Handler).

(** The test suite of the handlers, in its four tests ['should return a 404
    response for a non-existent product'] of GET, PUT, PATCH and DELETE on
    the id 2000: [expect( response.status ).toBe(404)] and
    [expect( response.body.error ).toBe('Producto no encontrado')]. *)
Definition expectsNotFound (res : Response) : bool :=
  (status res =? 404)
  && match json res with
     | Error text => String.eqb text "Producto no encontrado"
     | _ => false
     end.

(** The test ['should delete a product']: [expect( response.status ).toBe(200)]
    and [expect( response.body.data ).toBe('Producto eliminado')]; the swagger
    block of the DELETE route in [router.ts] documents the same text. *)
Definition expectsDeleted (res : Response) : bool :=
  (status res =? 200)
  && match json res with
     | DataText text => String.eqb text "Producto eliminado"
     | _ => false
     end.

(** The two fixed texts of the handlers.  They are the texts the tests
    above name, not the English ones of the spec: handlers that answered in
    other words would fail the tests of the repository. *)
Definition notFoundText : string := "Producto no encontrado".
Definition deletedText : string := "Producto eliminado".

Definition notFound : Response :=
  {| status := 404; json := Error notFoundText |}.

Definition ok (p : Payload) : Response := {| status := 200; json := p |}.

(** How the storage reads a body field into a column of its type; the
    handlers pass [req.body] to the model as it is. *)
Record Storage : Type := {
  nameColumn : JsValue -> string;
  priceColumn : JsValue -> Z;
  availabilityColumn : JsValue -> bool
}.

(** Modelled from the spec: the handlers of [src/handlers/product], which
    are not among the sources.  What each handler does with the table and
    the status it answers with follow section 4.2 of the spec.  The two
    fixed texts are the one part that does not: they are [notFoundText] and
    [deletedText], read off the test suite. *)
Definition runHandler (db : Storage) (h : Handler) (t : Table) (req : Request)
    : Table * Response :=
  let key := default "" (params req "id") in
  match h with
  | getProducts => (t, ok (DataList (Persistence.findAll t)))
  | getProductByID =>
      match Persistence.findByPk t key with
      | None => (t, notFound)
      | Some p => (t, ok (Data p))
      end
  | createProduct =>
      let r := {| rowName := nameColumn db (body req !! "name");
                  rowPrice := priceColumn db (body req !! "price");
                  rowAvailability := true |} in
      let '(p, t') := Persistence.create r t in
      (t', {| status := 201; json := Data p |})
  | updateProduct =>
      match Persistence.findByPk t key with
      | None => (t, notFound)
      | Some p =>
          let p' := {| id := id p;
                       name := nameColumn db (body req !! "name");
                       price := priceColumn db (body req !! "price");
                       availability :=
                         availabilityColumn db (body req !! "availability") |} in
          (Persistence.save p' t, ok (Data p'))
      end
  | updateAvailability =>
      match Persistence.findByPk t key with
      | None => (t, notFound)
      | Some p =>
          let p' := {| id := id p; name := name p; price := price p;
                       availability := negb (availability p) |} in
          (Persistence.save p' t, ok (Data p'))
      end
  | deleteProduct =>
      match Persistence.findByPk t key with
      | None => (t, notFound)
      | Some p => (Persistence.destroy p t, ok (DataText deletedText))
      end
  end.

(** Express runs the stages of the matched route in order.  A validation
    chain records its errors on the request and calls [next()], or calls
    [next(err)] when its run raised: then no further stage of the route runs
    and the final handler of Express answers 500 with its error page.  The
    other stages are as above. *)
Fixpoint runStack (db : Storage) (t : Table) (req : Request)
    (errors : list ValidationError) (stages : list Middleware) : Outcome :=
  match stages with
  | [] => {| table := t; response := None; invoked := None |}
  | Validate c :: rest =>
      match runChain c req with
      | Some found => runStack db t req (errors ++ found)%list rest
      | None =>
          {| table := t;
             response := Some {| status := 500; json := ErrorPage |};
             invoked := None |}
      end
  | HandleInputErrors :: rest =>
      match handleInputErrors errors with
      | Some res => {| table := t; response := Some res; invoked := None |}
      | None => runStack db t req errors rest
      end
  | Handle h :: _ =>
      let '(t', res) := runHandler db h t req in
      {| table := t'; response := Some res; invoked := Some h |}
  end.

(** ** [src/router.ts] *)

Definition idChain : ValidationChain :=
  Chain.param "id" |> Chain.isInt |> Chain.withMessage "Id no válido".

Definition nameChain : ValidationChain :=
  Chain.body "name"
    |> Chain.notEmpty |> Chain.withMessage "El nombre del producto no puede ir vacío".

Definition priceChain : ValidationChain :=
  Chain.body "price"
    |> Chain.isNumeric |> Chain.withMessage "Valor no válido"
    |> Chain.notEmpty |> Chain.withMessage "El precio del producto no puede ir vacío"
    |> Chain.custom greaterThanZero
    |> Chain.withMessage "El precio del producto no es válido".

Definition availabilityChain : ValidationChain :=
  Chain.body "availability"
    |> Chain.isBoolean |> Chain.withMessage "Valor para disponibilidad no válido".

(** The stages of the route that matches the request, as declared:
    [router.get('/')], [router.get('/:id')], [router.post('/')],
    [router.put('/:id')], [router.patch('/:id')], [router.delete('/:id')].
    No other route is declared. *)
Definition router (req : Request) : list Middleware :=
  match method req, url req with
  | GET, Root => [Handle getProducts]
  | GET, Item _ =>
      [Validate idChain; HandleInputErrors; Handle getProductByID]
  | POST, Root =>
      [Validate nameChain; Validate priceChain; HandleInputErrors;
       Handle createProduct]
  | PUT, Item _ =>
      [Validate idChain; Validate nameChain; Validate priceChain;
       Validate availabilityChain; HandleInputErrors; Handle updateProduct]
  | PATCH, Item _ =>
      [Validate idChain; HandleInputErrors; Handle updateAvailability]
  | DELETE, Item _ =>
      [Validate idChain; HandleInputErrors; Handle deleteProduct]
  | _, _ => []
  end.

(** A request that reached the router, on the table [t]. *)
Definition dispatch (db : Storage) (t : Table) (req : Request) : Outcome :=
  runStack db t req [] (router req).

(** ** [src/server.ts]: the CORS gate in front of the router *)

Record Env : Type := {
  FRONTEND_URL : option string
}.

(** What the [origin] function of [corsOptions] passes to its callback:
    [callback(null, true)] or [callback(new Error(...))]. *)
Inductive Callback : Type :=
  | Allowed
  | Failed (error : string).

Record OriginCheck : Type := {
  logged : list (option string);
  called : Callback
}.

(** [corsOptions.origin]: [origin] is the [Origin] header, [undefined]
    when the request has none; [===] compares it with the variable of the
    environment, itself [undefined] when unset. *)
Definition corsOrigin (env : Env) (origin : option string) : OriginCheck :=
  if decide (origin = FRONTEND_URL env) then
    {| logged := []; called := Allowed |}
  else
    {| logged := [FRONTEND_URL env]; called := Failed "Error de cors" |}.

(** A request under [/api/products] with its [Origin] header.
    [bodyError] is the status with which [express.json()] gives the request
    up (400 for a malformed body, 413 for one too large, 415 for an encoding
    it does not read); when it is [None] the parser went on, and the body of
    [request] is what it left in [req.body]. *)
Record Incoming : Type := {
  origin : option string;
  request : Request;
  bodyError : option Z
}.

(** How the middleware stack of the server ends for a request.  The [cors]
    package hands an error of the origin function to [next(err)], after
    which no regular middleware runs; on an allowed origin it answers a
    preflight itself and lets every other request through to
    [express.json()], which either gives the request up or passes it on to
    the logger and the router. *)
Inductive Served : Type :=
  | Refused (error : string)
  | Preflight
  | Unparsed (status : Z)
  | Routed (o : Outcome).

Definition server (env : Env) (db : Storage) (t : Table) (inc : Incoming) : Served :=
  match called (corsOrigin env (origin inc)) with
  | Failed e => Refused e
  | Allowed =>
      match method (request inc) with
      | OPTIONS => Preflight
      | _ =>
          match bodyError inc with
          | Some status => Unparsed status
          | None => Routed (dispatch db t (request inc))
          end
      end
  end.

(** A storage for running the API on concrete requests: text columns keep
    the printed value, integer columns the number, and a flag is set by
    [true] and [1]. *)
Definition memory : Storage :=
  {| nameColumn := fun v => default "" (toString v);
     priceColumn := fun v => match v with Some (JNum n) => n | _ => 0 end;
     availabilityColumn :=
       fun v =>
         match toString v with
         | Some text => String.eqb text "true" || String.eqb text "1"
         | None => false
         end |}.

Definition req (m : Method) (u : Path) (b : list (string * Json)) : Request :=
  {| method := m; url := u; body := list_to_map b |}.

Definition monitor : Row :=
  {| rowName := "Monitor Curvo"; rowPrice := 300; rowAvailability := true |}.

(** The error entries the chains of the router can report. *)
Definition idError (i : string) : ValidationError :=
  {| location := InParams; path := "id"; value := Some (JStr i);
     msg := "Id no válido" |}.

Definition nameEmpty (v : JsValue) : ValidationError :=
  {| location := InBody; path := "name"; value := v;
     msg := "El nombre del producto no puede ir vacío" |}.

Definition priceNotNumeric (v : JsValue) : ValidationError :=
  {| location := InBody; path := "price"; value := v;
     msg := "Valor no válido" |}.

Definition priceEmpty (v : JsValue) : ValidationError :=
  {| location := InBody; path := "price"; value := v;
     msg := "El precio del producto no puede ir vacío" |}.

Definition priceInvalid (v : JsValue) : ValidationError :=
  {| location := InBody; path := "price"; value := v;
     msg := "El precio del producto no es válido" |}.

Definition availabilityInvalid (v : JsValue) : ValidationError :=
  {| location := InBody; path := "availability"; value := v;
     msg := "Valor para disponibilidad no válido" |}.

(** The three body chains of [PUT] after the [id] chain: the errors they
    add, or [None] when one of them raised. *)
Definition updateBodyRun (r : Request) : option (list ValidationError) :=
  match runChain nameChain r, runChain priceChain r,
        runChain availabilityChain r with
  | Some names, Some prices, Some flags =>
      Some (names ++ prices ++ flags)%list
  | _, _, _ => None
  end.

(** A request that ended with the 500 of Express, no handler run. *)
Definition failed (t : Table) : Outcome :=
  {| table := t;
     response := Some {| status := 500; json := ErrorPage |};
     invoked := None |}.

(** The reply of [handleInputErrors] with these errors, no handler run. *)
Definition rejected (t : Table) (errors : list ValidationError) : Outcome :=
  {| table := t;
     response := Some {| status := 400; json := Errors errors |};
     invoked := None |}.

(** The reply of a handler. *)
Definition handled (h : Handler) (t : Table) (res : Response) : Outcome :=
  {| table := t; response := Some res; invoked := Some h |}.

(** The claim of one error entry with a given message, as a predicate on
    what a request did. *)
Definition singleError (text : string) (o : Outcome) : Prop :=
  exists e,
    response o = Some {| status := 400; json := Errors [e] |} /\ msg e = text.


(** Sample data: the environment of a deployment, a request without an
    [Origin] header and the bodies the test suite sends. *)
Definition deployed : Env :=
  {| FRONTEND_URL := Some "http://localhost:5173" |}.

Definition anonymous : Incoming :=
  {| origin := None; request := req GET Root []; bodyError := None |}.

Definition priced (p : Json) : list (string * Json) :=
  [("name", JStr "Monitor Curvo"); ("price", p)].

(** The characters a string that passes [isNumeric] is made of. *)
Definition numericChar (c : ascii) : bool :=
  isDigit c || isSign c || Ascii.eqb c ".".

Fixpoint numericText (s : string) : bool :=
  match s with
  | EmptyString => true
  | String c r => numericChar c && numericText r
  end.

(** The body of [isNumeric] after the sign. *)
Definition unsignedNumeric (r : string) : bool :=
  match skipDigits r with
  | EmptyString => digits1 r
  | String "."%char frac => digits1 frac
  | String _ _ => false
  end.

(** ** Routes as a whole *)

(** The errors the validation chains among the stages leave on the request,
    in the order of the stages.  A chain whose run raised leaves nothing, and
    no chain after it runs. *)
Fixpoint validationErrors (stages : list Middleware) (r : Request)
    : list ValidationError :=
  match stages with
  | [] => []
  | Validate c :: rest =>
      match runChain c r with
      | Some found => (found ++ validationErrors rest r)%list
      | None => []
      end
  | HandleInputErrors :: rest | Handle _ :: rest => validationErrors rest r
  end.

(** Whether the run of one of the chains raised. *)
Fixpoint routeThrows (stages : list Middleware) (r : Request) : bool :=
  match stages with
  | [] => false
  | Validate c :: rest =>
      match runChain c r with
      | Some _ => routeThrows rest r
      | None => true
      end
  | HandleInputErrors :: rest | Handle _ :: rest => routeThrows rest r
  end.

(** A number whose integer literal is the double itself and prints as its
    decimal numeral: the magnitude is at most 2^53. *)
Definition safeInteger (n : Z) : Prop := Z.abs n <= 2 ^ 53.

(** An object whose own [toString] property is falsy: the one kind of value
    that is not an array and that the validation library cannot turn into
    text. *)
Definition unprintable (v : JsValue) : bool :=
  match v with
  | Some (JObj fields) =>
      match getOwn "toString" fields with
      | Some own => negb (truthy own)
      | None => false
      end
  | _ => false
  end.

(** The handler at the end of the stages, if there is one. *)
Fixpoint handlerOf (stages : list Middleware) : option Handler :=
  match stages with
  | [] => None
  | Handle h :: _ => Some h
  | _ :: rest => handlerOf rest
  end.

Definition isArray (v : JsValue) : bool :=
  match v with
  | Some (JArr _) => true
  | _ => false
  end.

(** Where an error entry was found, under which name, and its message. *)
Definition entry (e : ValidationError) : Location * string * string :=
  (location e, path e, msg e).

(** The six [withMessage] texts of [router.ts], each with its field. *)
Definition declaredEntries : list (Location * string * string) :=
  [ (InParams, "id", "Id no válido");
    (InBody, "name", "El nombre del producto no puede ir vacío");
    (InBody, "price", "Valor no válido");
    (InBody, "price", "El precio del producto no puede ir vacío");
    (InBody, "price", "El precio del producto no es válido");
    (InBody, "availability", "Valor para disponibilidad no válido") ].

(** The most errors a route reports on values that are not arrays. *)
Definition errorBound (r : Request) : nat :=
  match method r, url r with
  | POST, Root => 4
  | PUT, Item _ => 6
  | GET, Item _ | PATCH, Item _ | DELETE, Item _ => 1
  | _, _ => 0
  end.

(** ** [src/index.ts] *)

(** [process.env.PORT || 4000]: the variable when it is set to a non-empty
    text, the number 4000 otherwise. *)
Definition port (PORT : option string) : Json :=
  match PORT with
  | Some (String c s) => JStr (String c s)
  | Some EmptyString | None => JNum 4000
  end.

(** The port of [server.listen(4000, ...)]. *)
Definition listening : Z := 4000.

(** The text of the line logged once the server listens, before it is
    coloured: [`REst API en port ${ port }`].  [port] is a string or a
    number, whose conversion to text cannot raise. *)
Definition banner (PORT : option string) : string :=
  "REst API en port " ++ default "" (jsString (port PORT)).

(** * Properties *)

(** ** Key texts *)






Lemma isDigit_digitValue c :
  isDigit c = true -> exists d, digitValue c = Some d /\ (d <? 10)%N = true.
Proof.
  destruct c as [[] [] [] [] [] [] [] []]; intros H;
    first [discriminate H | eexists; split; reflexivity].
Qed.

Lemma numeralFrom_total s : forall acc,
  allDigits s = true -> exists n, numeralFrom 10 acc s = Some n.
Proof.
  induction s as [|c s IH]; intros acc; [eexists; reflexivity|].
  cbn [allDigits numeralFrom]. intros [Hc Hs]%andb_prop.
  destruct (isDigit_digitValue c Hc) as (d & -> & ->). apply IH, Hs.
Qed.

(** And every key text that passes [isInt] denotes an integer. *)
Lemma isInt_intOfString s : isInt s = true -> exists i, intOfString s = Some i.
Proof.
  assert (Hnum : forall d, digits1 d = true -> exists n, numeral 10 d = Some n).
  { intros [|c d] Hd; [discriminate Hd|]. apply numeralFrom_total, Hd. }
  unfold isInt, intOfString, dropSign. destruct s as [|c s]; [discriminate|].
  destruct c as [[] [] [] [] [] [] [] []]; cbn [isSign];
    intros [n Hn]%Hnum; rewrite Hn; eexists; reflexivity.
Qed.

(** ** What each route does *)

Lemma runChain_id r i :
  url r = Item i ->
  runChain idChain r = Some (if isInt i then [] else [idError i]).
Proof.
  intros Hu. unfold runChain, selectField, params. cbn. rewrite Hu. cbn.
  destruct (isInt i); reflexivity.
Qed.

Lemma handleInputErrors_cons e errors :
  handleInputErrors (e :: errors)
  = Some {| status := 400; json := Errors (e :: errors) |}.
Proof. reflexivity. Qed.

Lemma runChain_name r : runChain nameChain r = runOn nameChain (body r !! "name").
Proof. reflexivity. Qed.

Lemma runChain_price r : runChain priceChain r = runOn priceChain (body r !! "price").
Proof. reflexivity. Qed.

Lemma runChain_availability r :
  runChain availabilityChain r = runOn availabilityChain (body r !! "availability").
Proof. reflexivity. Qed.

(** The three routes that only check the [id]: the handler runs exactly
    when the key text passes [isInt]. *)
Lemma dispatch_item db t r i h :
  router r = [Validate idChain; HandleInputErrors; Handle h] ->
  url r = Item i ->
  dispatch db t r
  = if isInt i then
      handled h (fst (runHandler db h t r)) (snd (runHandler db h t r))
    else rejected t [idError i].
Proof.
  intros Hr Hu. unfold dispatch. rewrite Hr. cbn [runStack app].
  rewrite (runChain_id r i Hu).
  destruct (isInt i); cbn [handleInputErrors app]; [|reflexivity].
  destruct (runHandler db h t r); reflexivity.
Qed.

Lemma dispatch_put db t r i :
  method r = PUT -> url r = Item i ->
  dispatch db t r
  = match updateBodyRun r with
    | None => failed t
    | Some found =>
        match ((if isInt i then [] else [idError i]) ++ found)%list with
        | [] => handled updateProduct (fst (runHandler db updateProduct t r))
                  (snd (runHandler db updateProduct t r))
        | e :: errors => rejected t (e :: errors)
        end
    end.
Proof.
  intros Hm Hu. unfold dispatch, router. rewrite Hm, Hu.
  cbn [runStack app]. rewrite (runChain_id r i Hu). unfold updateBodyRun.
  destruct (runChain nameChain r) as [names|]; [|reflexivity].
  destruct (runChain priceChain r) as [prices|]; [|reflexivity].
  destruct (runChain availabilityChain r) as [flags|]; [|reflexivity].
  rewrite <- !app_assoc.
  destruct (_ ++ _)%list as [|e errors]; cbn [handleInputErrors]; [|reflexivity].
  destruct (runHandler db updateProduct t r); reflexivity.
Qed.

Lemma dispatch_post db t r :
  method r = POST -> url r = Root ->
  dispatch db t r
  = match runOn nameChain (body r !! "name"),
          runOn priceChain (body r !! "price") with
    | Some names, Some prices =>
        match (names ++ prices)%list with
        | [] => handled createProduct (fst (runHandler db createProduct t r))
                  (snd (runHandler db createProduct t r))
        | e :: errors => rejected t (e :: errors)
        end
    | _, _ => failed t
    end.
Proof.
  intros Hm Hu. unfold dispatch, router. rewrite Hm, Hu.
  cbn [runStack app]. rewrite runChain_name, runChain_price.
  destruct (runOn nameChain _) as [names|]; [|reflexivity].
  destruct (runOn priceChain _) as [prices|]; [|reflexivity].
  destruct (_ ++ _)%list as [|e errors]; cbn [handleInputErrors]; [|reflexivity].
  destruct (runHandler db createProduct t r); reflexivity.
Qed.

Lemma router_item r i :
  url r = Item i ->
  (method r = GET ->
   router r = [Validate idChain; HandleInputErrors; Handle getProductByID]) /\
  (method r = PATCH ->
   router r = [Validate idChain; HandleInputErrors; Handle updateAvailability]) /\
  (method r = DELETE ->
   router r = [Validate idChain; HandleInputErrors; Handle deleteProduct]).
Proof.
  intros Hu. unfold router. rewrite Hu.
  repeat split; intros ->; reflexivity.
Qed.

(** A non-empty string passes [notEmpty]. *)
Lemma runOn_name_string s : s <> "" -> runOn nameChain (Some (JStr s)) = Some [].
Proof. destruct s; [congruence | reflexivity]. Qed.

(** ** Malformed ids *)


(** ** Missing rows *)






(** The expectations of the tests leave one reply each. *)
Lemma expectsNotFound_reply res :
  expectsNotFound res = true <->
  res = {| status := 404; json := Error "Producto no encontrado" |}.
Proof.
  split; [|intros ->; reflexivity].
  destruct res as [code payload]. unfold expectsNotFound. cbn [status json].
  intros [Hcode Htext]%andb_prop. apply Z.eqb_eq in Hcode as ->.
  destruct payload; try discriminate Htext.
  apply String.eqb_eq in Htext as ->. reflexivity.
Qed.

Lemma expectsDeleted_reply res :
  expectsDeleted res = true <->
  res = {| status := 200; json := DataText "Producto eliminado" |}.
Proof.
  split; [|intros ->; reflexivity].
  destruct res as [code payload]. unfold expectsDeleted. cbn [status json].
  intros [Hcode Htext]%andb_prop. apply Z.eqb_eq in Hcode as ->.
  destruct payload; try discriminate Htext.
  apply String.eqb_eq in Htext as ->. reflexivity.
Qed.


(** ** Body validation *)

(** C3.  A POST whose body has neither [name] nor [price] is answered 400
    with exactly four error entries, in the order the rules are declared:
    name not empty, price numeric, price not empty, price above zero.  The
    three price rules all report; no handler runs. *)
Theorem C3_create_missing_fields db t r :
  method r = POST ->
  url r = Root ->
  body r !! "name" = None ->
  body r !! "price" = None ->
  dispatch db t r
  = rejected t [nameEmpty None; priceNotNumeric None; priceEmpty None;
                priceInvalid None].
Proof.
  intros Hm Hu Hn Hp. rewrite (dispatch_post db t r Hm Hu), Hn, Hp.
  reflexivity.
Qed.

(** C4.  A PUT on a well-formed integer id with an empty body is answered
    400 with exactly five error entries: name not empty, price numeric,
    price not empty, price above zero, availability boolean. *)
Theorem C4_update_empty_body db t r i :
  method r = PUT ->
  url r = Item i ->
  isInt i = true ->
  body r = ∅ ->
  dispatch db t r
  = rejected t [nameEmpty None; priceNotNumeric None; priceEmpty None;
                priceInvalid None; availabilityInvalid None].
Proof.
  intros Hm Hu Hi Hb. rewrite (dispatch_put db t r i Hm Hu), Hi.
  unfold updateBodyRun.
  rewrite runChain_name, runChain_price, runChain_availability, Hb.
  rewrite !lookup_empty. reflexivity.
Qed.

(** C5, as amended.  A POST with a non-empty string as [name] and the
    number 0 as [price] is answered 400 with exactly one error entry, whose
    message is "El precio del producto no es válido". *)
Theorem C5_create_price_zero db t r s :
  method r = POST ->
  url r = Root ->
  body r !! "name" = Some (JStr s) ->
  s <> "" ->
  body r !! "price" = Some (JNum 0) ->
  dispatch db t r = rejected t [priceInvalid (Some (JNum 0))].
Proof.
  intros Hm Hu Hn Hs Hp. rewrite (dispatch_post db t r Hm Hu), Hn, Hp.
  rewrite (runOn_name_string s Hs). reflexivity.
Qed.

(** ** Numeric strings and JavaScript's conversion *)

Lemma allDigits_numericText s : allDigits s = true -> numericText s = true.
Proof.
  induction s as [|c s IH]; [reflexivity|]. cbn [allDigits numericText].
  intros [Hc Hs]%andb_prop. unfold numericChar. rewrite Hc, (IH Hs).
  reflexivity.
Qed.

Lemma digits1_allDigits s : digits1 s = true -> allDigits s = true.
Proof. destruct s; [discriminate | exact (fun H => H)]. Qed.

Lemma unsignedNumeric_numericText r :
  unsignedNumeric r = true -> numericText r = true.
Proof.
  unfold unsignedNumeric. induction r as [|c r IH]; [reflexivity|].
  cbn [skipDigits numericText]. destruct (isDigit c) eqn:Hc.
  - intros H. unfold numericChar. rewrite Hc. cbn [orb andb].
    destruct r as [|c' r']; [reflexivity|]. apply IH.
    destruct (skipDigits (String c' r')) as [|d frac]; [|exact H].
    cbn [digits1 allDigits] in H. rewrite Hc in H. exact H.
  - intros H.
    assert (c = "."%char /\ digits1 r = true) as [-> Hr].
    { destruct c as [[] [] [] [] [] [] [] []];
        first [discriminate H | split; [reflexivity | exact H]]. }
    cbn. apply allDigits_numericText, digits1_allDigits, Hr.
Qed.

Lemma takeDigits_allDigits s :
  allDigits s = true -> takeDigits s = s /\ skipDigits s = "".
Proof.
  induction s as [|c s IH]; [split; reflexivity|].
  cbn [allDigits takeDigits skipDigits]. intros [Hc Hs]%andb_prop.
  rewrite Hc. destruct (IH Hs) as [-> ->]. split; reflexivity.
Qed.

Lemma allDigits_takeDigits s : allDigits (takeDigits s) = true.
Proof.
  induction s as [|c s IH]; [reflexivity|]. cbn [takeDigits].
  destruct (isDigit c) eqn:Hc; [|reflexivity].
  cbn [allDigits]. rewrite Hc, IH. reflexivity.
Qed.

Lemma allDigits_append a b :
  allDigits a = true -> allDigits b = true -> allDigits (a ++ b) = true.
Proof.
  induction a as [|c a IH]; [intros _ H; exact H|].
  cbn [allDigits]. intros [Hc Ha]%andb_prop Hb.
  change (isDigit c && allDigits (a ++ b) = true).
  rewrite Hc, (IH Ha Hb). reflexivity.
Qed.

Lemma skipDigits_takeDigits s :
  skipDigits s = "" -> takeDigits s = s.
Proof.
  induction s as [|c s IH]; [reflexivity|]. cbn [skipDigits takeDigits].
  destruct (isDigit c); [|discriminate]. intros H. rewrite (IH H). reflexivity.
Qed.

(** A string of sign, digit and dot characters has no white space to trim. *)
Lemma stripFirst_numericChar c r :
  numericChar c = true -> stripFirst whiteSpaceCodes (String c r) = None.
Proof.
  destruct c as [[] [] [] [] [] [] [] []]; intros H;
    first [discriminate H | reflexivity].
Qed.

Lemma trim_numericText s : numericText s = true -> trim s = s.
Proof.
  intros Hs. unfold trim.
  assert (Hfront : forall c r, numericChar c = true ->
    stripAll (String.length (String c r)) whiteSpaceCodes (String c r) = String c r).
  { intros c r Hc. cbn [String.length stripAll].
    rewrite (stripFirst_numericChar c r Hc). reflexivity. }
  assert (Hstart : stripAll (String.length s) whiteSpaceCodes s = s).
  { destruct s as [|c r]; [reflexivity|].
    cbn [numericText] in Hs. apply andb_prop in Hs as [Hc _]. apply Hfront, Hc. }
  rewrite Hstart. clear Hstart.
  induction s as [|c r IH]; [reflexivity|].
  cbn [numericText] in Hs. apply andb_prop in Hs as [Hc Hr].
  cbn [trimEnd]. unfold allWhiteSpace. rewrite (Hfront c r Hc).
  cbn [isEmpty]. rewrite (IH Hr). reflexivity.
Qed.

Lemma nonDecimal_numericText s : numericText s = true -> nonDecimal s = None.
Proof.
  destruct s as [|c0 [|c1 r]]; intros H.
  - reflexivity.
  - destruct c0 as [[] [] [] [] [] [] [] []]; reflexivity.
  - assert (Hc1 : numericChar c1 = true).
    { cbn [numericText] in H. apply andb_prop in H as [_ H].
      apply andb_prop in H as [H _]. exact H. }
    clear H. destruct c0 as [[] [] [] [] [] [] [] []]; try reflexivity.
    destruct c1 as [[] [] [] [] [] [] [] []];
      first [discriminate Hc1 | reflexivity].
Qed.

Lemma unsignedDecimal_numeric negative r :
  unsignedNumeric r = true -> unsignedDecimal negative r <> NaN.
Proof.
  intros H. pose proof (unsignedNumeric_numericText r H) as Htext.
  unfold unsignedDecimal.
  destruct (String.eqb_spec r "Infinity") as [-> | _]; [discriminate Htext|].
  unfold unsignedNumeric in H.
  destruct (skipDigits r) as [|d rest] eqn:Hskip.
  - rewrite (skipDigits_takeDigits r Hskip).
    destruct r as [|c r]; [discriminate H|]. cbn [isEmpty andb].
    destruct (numeralFrom_total (String c r ++ "") 0%N) as [n ->].
    { apply allDigits_append; [exact H | reflexivity]. }
    cbn. discriminate.
  - assert (d = "."%char /\ digits1 rest = true) as [-> Hfrac].
    { destruct d as [[] [] [] [] [] [] [] []];
        first [discriminate H | split; [reflexivity | exact H]]. }
    pose proof (digits1_allDigits rest Hfrac) as Hall.
    destruct (takeDigits_allDigits rest Hall) as [-> ->].
    destruct rest as [|c rest]; [discriminate Hfrac|].
    rewrite andb_false_r.
    destruct (numeralFrom_total (takeDigits r ++ String c rest) 0%N) as [n ->].
    { apply allDigits_append; [apply allDigits_takeDigits | exact Hall]. }
    cbn. discriminate.
Qed.

(** Whatever passes [isNumeric] is a numeric literal for JavaScript. *)
Lemma isNumeric_stringToNumber s :
  isNumeric s = true -> stringToNumber s <> NaN.
Proof.
  intros H.
  assert (Hu : unsignedNumeric (dropSign s) = true) by exact H.
  assert (Htext : numericText s = true).
  { destruct s as [|c r]; [reflexivity|]. cbn [dropSign] in Hu.
    destruct (isSign c) eqn:Hc.
    - cbn [numericText]. unfold numericChar. rewrite Hc, orb_true_r.
      cbn. apply unsignedNumeric_numericText, Hu.
    - apply unsignedNumeric_numericText, Hu. }
  unfold stringToNumber. rewrite (trim_numericText s Htext).
  destruct s as [|c r]; [discriminate H|].
  rewrite (nonDecimal_numericText _ Htext). cbn [dropSign] in Hu.
  destruct (Ascii.eqb_spec c "-") as [-> | Hminus].
  - apply unsignedDecimal_numeric, Hu.
  - destruct (Ascii.eqb_spec c "+") as [-> | Hplus].
    + apply unsignedDecimal_numeric, Hu.
    + apply unsignedDecimal_numeric.
      destruct (isSign c) eqn:Hc; [|exact Hu].
      destruct c as [[] [] [] [] [] [] [] []];
        first [discriminate Hc | congruence].
Qed.

Lemma runOn_price_string s :
  runOn priceChain (Some (JStr s))
  = Some ((if isNumeric s then [] else [priceNotNumeric (Some (JStr s))])
          ++ (if isEmpty s then [priceEmpty (Some (JStr s))] else [])
          ++ (if greaterThanZero (Some (JStr s)) then []
              else [priceInvalid (Some (JStr s))]))%list.
Proof.
  unfold runOn. cbn -[isNumeric isEmpty greaterThanZero].
  destruct (isNumeric s), (isEmpty s), (greaterThanZero (Some (JStr s)));
    reflexivity.
Qed.

Lemma stringToNumber_NaN s :
  stringToNumber s = NaN ->
  isNumeric s = false /\ isEmpty s = false
  /\ greaterThanZero (Some (JStr s)) = false.
Proof.
  intros H. repeat split.
  - destruct (isNumeric s) eqn:Hn; [|reflexivity].
    destruct (isNumeric_stringToNumber s Hn H).
  - destruct s; [discriminate H | reflexivity].
  - unfold greaterThanZero. cbn [jsString]. rewrite H. reflexivity.
Qed.

(** C6, as amended.  A POST with a non-empty string as [name] and a string
    as [price]: when JavaScript reads the price as no number at all (as for
    ["Hola"]), the answer is 400 with exactly two error entries, the numeric
    check and the above-zero check, and the presence check passes.  More
    generally, for a non-empty price that fails the numeric check the numeric
    error comes first and the above-zero error follows exactly when the
    string does not compare above zero. *)
Theorem C6_create_price_string db t r n s :
  method r = POST ->
  url r = Root ->
  body r !! "name" = Some (JStr n) ->
  n <> "" ->
  body r !! "price" = Some (JStr s) ->
  (stringToNumber s = NaN ->
   dispatch db t r
   = rejected t [priceNotNumeric (Some (JStr s)); priceInvalid (Some (JStr s))]) /\
  (s <> "" -> isNumeric s = false ->
   dispatch db t r
   = rejected t
       (priceNotNumeric (Some (JStr s))
        :: if greaterThanZero (Some (JStr s)) then []
           else [priceInvalid (Some (JStr s))])).
Proof.
  intros Hm Hu Hn Hne Hp.
  rewrite (dispatch_post db t r Hm Hu), Hn, Hp, (runOn_name_string n Hne).
  rewrite runOn_price_string. split.
  - intros (-> & -> & ->)%stringToNumber_NaN. reflexivity.
  - intros Hs ->. destruct s; [congruence|]. cbn [isEmpty].
    destruct (greaterThanZero _); reflexivity.
Qed.

(** ** Availability toggle and deletion *)






(** C9.  The PATCH route has the [id] chain, on the path parameter, as its
    only validator, and two PATCH requests to the same id on the same table
    have the same outcome (response, table and handler run) whatever their
    bodies are. *)
Theorem C9_patch_ignores_body db t key b1 b2 :
  router {| method := PATCH; url := Item key; body := b1 |}
  = [Validate idChain; HandleInputErrors; Handle updateAvailability]
  /\ chainLocation idChain = InParams
  /\ dispatch db t {| method := PATCH; url := Item key; body := b1 |}
     = dispatch db t {| method := PATCH; url := Item key; body := b2 |}.
Proof.
  split; [reflexivity | split; [reflexivity|]].
  set (r1 := {| method := PATCH; url := Item key; body := b1 |}).
  set (r2 := {| method := PATCH; url := Item key; body := b2 |}).
  rewrite (dispatch_item db t r1 key updateAvailability eq_refl eq_refl).
  rewrite (dispatch_item db t r2 key updateAvailability eq_refl eq_refl).
  reflexivity.
Qed.

(** ** The CORS gate *)

(** C10.  A request whose [Origin] differs from [FRONTEND_URL] makes the
    origin function call back with an error and is refused before the router
    runs; this includes every request without an [Origin] header when
    [FRONTEND_URL] is set.  A request that reaches the routes of
    [/api/products] has its [Origin] equal to [FRONTEND_URL]. *)
Theorem C10_cors_gate env db t inc :
  (origin inc <> FRONTEND_URL env ->
   called (corsOrigin env (origin inc)) = Failed "Error de cors"
   /\ server env db t inc = Refused "Error de cors") /\
  (origin inc = None -> is_Some (FRONTEND_URL env) ->
   server env db t inc = Refused "Error de cors") /\
  (forall o, server env db t inc = Routed o -> origin inc = FRONTEND_URL env).
Proof.
  assert (Hrefuse : origin inc <> FRONTEND_URL env ->
    called (corsOrigin env (origin inc)) = Failed "Error de cors"
    /\ server env db t inc = Refused "Error de cors").
  { intros Hne. unfold server, corsOrigin.
    destruct (decide (origin inc = FRONTEND_URL env)) as [Heq | _];
      [contradiction | split; reflexivity]. }
  split; [exact Hrefuse | split].
  - intros Hnone [u Hset]. apply Hrefuse. congruence.
  - intros o. unfold server, corsOrigin.
    destruct (decide (origin inc = FRONTEND_URL env)) as [Heq | _];
      [intros _; exact Heq | discriminate].
Qed.


(** ** Creation *)

Lemma newId_above (t : Table) :
  0 < Persistence.newId t
  /\ forall k, is_Some (t !! k) -> k < Persistence.newId t.
Proof.
  unfold Persistence.newId.
  apply (map_fold_weak_ind
           (fun acc (m : Table) =>
              0 < 1 + acc /\ forall k, is_Some (m !! k) -> k < 1 + acc)).
  - split; [lia|]. intros j [x Hx]. rewrite lookup_empty in Hx. discriminate Hx.
  - intros j x m acc _ [Hpos IH]. split; [lia|]. intros k Hk.
    destruct (decide (j = k)) as [-> | Hne]; [lia|].
    rewrite lookup_insert_ne in Hk by exact Hne.
    specialize (IH k Hk). lia.
Qed.

(** The key of a created product is not in use, so creation overwrites
    nothing. *)
Lemma newId_fresh (t : Table) : t !! Persistence.newId t = None.
Proof.
  destruct (t !! Persistence.newId t) as [row|] eqn:H; [|reflexivity].
  destruct (newId_above t) as [_ Hlt].
  specialize (Hlt (Persistence.newId t) (ex_intro _ row H)). lia.
Qed.

(** A POST whose body passes the rules creates a row with availability set
    and answers 201 with it. *)
Lemma dispatch_create db t r :
  method r = POST -> url r = Root ->
  runOn nameChain (body r !! "name") = Some [] ->
  runOn priceChain (body r !! "price") = Some [] ->
  exists p,
    dispatch db t r
    = handled createProduct (<[id p := columns p]> t)
        {| status := 201; json := Data p |}
    /\ availability p = true /\ t !! id p = None.
Proof.
  intros Hm Hu Hn Hp. rewrite (dispatch_post db t r Hm Hu), Hn, Hp.
  eexists. split; [reflexivity | split; [reflexivity | apply newId_fresh]].
Qed.

(** ** The claims on concrete requests *)





Lemma C3_create_missing_fields_witness :
  dispatch memory ∅ (req POST Root [])
  = rejected ∅ [nameEmpty None; priceNotNumeric None; priceEmpty None;
                priceInvalid None].
Proof.
  apply (C3_create_missing_fields memory ∅ (req POST Root [])); reflexivity.
Defined.

Lemma C4_update_empty_body_witness :
  isInt "1" = true
  /\ dispatch memory {[ 1 := monitor ]} (req PUT (Item "1") [])
     = rejected {[ 1 := monitor ]}
         [nameEmpty None; priceNotNumeric None; priceEmpty None;
          priceInvalid None; availabilityInvalid None].
Proof.
  split; [reflexivity|].
  apply (C4_update_empty_body memory {[ 1 := monitor ]}
           (req PUT (Item "1") []) "1"); reflexivity.
Defined.

Lemma C5_create_price_zero_witness :
  dispatch memory ∅ (req POST Root (priced (JNum 0)))
  = rejected ∅ [priceInvalid (Some (JNum 0))].
Proof.
  apply (C5_create_price_zero memory ∅ (req POST Root (priced (JNum 0)))
           "Monitor Curvo");
    first [reflexivity | discriminate].
Defined.

(** Against C5 as stated: the message of the single entry is not
    "Invalid product price". *)
Lemma C5_counterexample :
  ~ singleError "Invalid product price"
      (dispatch memory ∅ (req POST Root (priced (JNum 0)))).
Proof.
  intros (e & H & Hmsg). vm_compute in H. inversion H; subst e.
  vm_compute in Hmsg. discriminate Hmsg.
Qed.

Lemma C6_create_price_string_witness :
  stringToNumber "Hola" = NaN
  /\ dispatch memory ∅ (req POST Root (priced (JStr "Hola")))
     = rejected ∅ [priceNotNumeric (Some (JStr "Hola"));
                   priceInvalid (Some (JStr "Hola"))].
Proof.
  split; [reflexivity|].
  apply (C6_create_price_string memory ∅
           (req POST Root (priced (JStr "Hola"))) "Monitor Curvo" "Hola");
    first [reflexivity | discriminate].
Defined.

(** Against C6 as stated: ["Infinity"] is a non-empty string that fails the
    numeric check, yet it compares above zero, and the answer has one error
    entry, not two. *)
Lemma C6_counterexample :
  isNumeric "Infinity" = false
  /\ isEmpty "Infinity" = false
  /\ dispatch memory ∅ (req POST Root (priced (JStr "Infinity")))
     = rejected ∅ [priceNotNumeric (Some (JStr "Infinity"))]
  /\ forall errors,
       response (dispatch memory ∅ (req POST Root (priced (JStr "Infinity"))))
       = Some {| status := 400; json := Errors errors |} ->
       length errors <> 2%nat.
Proof.
  split; [reflexivity | split; [reflexivity | split; [reflexivity|]]].
  intros errors H. vm_compute in H. inversion H; subst errors.
  cbn. discriminate.
Qed.




Lemma C10_cors_gate_witness :
  origin anonymous <> FRONTEND_URL deployed
  /\ server deployed memory ∅ anonymous = Refused "Error de cors".
Proof.
  split; [discriminate|].
  destruct (C10_cors_gate deployed memory ∅ anonymous) as (Hrefused & _ & _).
  apply Hrefused. discriminate.
Defined.

(** ** The scenarios of the test suite *)

Example test_create_product :
  dispatch memory ∅
    (req POST Root [("name", JStr "Mouse - Testing"); ("price", JNum 100)])
  = handled createProduct
      {[ 1 := {| rowName := "Mouse - Testing"; rowPrice := 100;
                 rowAvailability := true |} ]}
      {| status := 201;
         json := Data {| id := 1; name := "Mouse - Testing"; price := 100;
                         availability := true |} |}.
Proof. reflexivity. Qed.

Example test_list_products :
  response (dispatch memory {[ 1 := monitor ]} (req GET Root []))
  = Some (ok (DataList [instance 1 monitor])).
Proof. reflexivity. Qed.

Example test_get_product :
  response (dispatch memory {[ 1 := monitor ]} (req GET (Item "1") []))
  = Some (ok (Data (instance 1 monitor))).
Proof. reflexivity. Qed.

Example test_update_invalid_id :
  dispatch memory {[ 1 := monitor ]}
    (req PUT (Item "not-valid-url")
       [("name", JStr "Monitor Curvo Actualizado"); ("price", JNum 100);
        ("availability", JBool true)])
  = rejected {[ 1 := monitor ]} [idError "not-valid-url"].
Proof. reflexivity. Qed.

Example test_update_price_zero :
  dispatch memory {[ 1 := monitor ]}
    (req PUT (Item "1")
       [("name", JStr "Monitor Curvo Actualizado"); ("price", JNum 0);
        ("availability", JBool true)])
  = rejected {[ 1 := monitor ]} [priceInvalid (Some (JNum 0))].
Proof. reflexivity. Qed.

Example test_update_product :
  response
    (dispatch memory {[ 1 := monitor ]}
       (req PUT (Item "1")
          [("name", JStr "Monitor Curvo Actualizado"); ("price", JNum 300);
           ("availability", JBool true)]))
  = Some (ok (Data {| id := 1; name := "Monitor Curvo Actualizado";
                      price := 300; availability := true |})).
Proof. reflexivity. Qed.

Example test_delete_invalid_id :
  dispatch memory {[ 1 := monitor ]} (req DELETE (Item "hola") [])
  = rejected {[ 1 := monitor ]} [idError "hola"].
Proof. reflexivity. Qed.

(** * Further properties of the router, the server and the entry point *)

(** ** How JavaScript prints an integer *)

Lemma allDigits_string_of_uint d :
  allDigits (NilEmpty.string_of_uint d) = true.
Proof. induction d; cbn; assumption || reflexivity. Qed.

Lemma digits1_string_of_uint d :
  digits1 (NilZero.string_of_uint d) = true.
Proof.
  destruct d; try reflexivity;
    exact (allDigits_string_of_uint _).
Qed.

(** A decimal numeral is its digits, after a minus sign when the integer is
    negative. *)
Lemma decimal_shape n :
  exists d,
    digits1 d = true
    /\ decimal n = if n <? 0 then String "-" d else d.
Proof.
  unfold decimal. destruct n as [|p|p]; cbn [Z.to_int Z.ltb Z.compare].
  - exists "0". split; reflexivity.
  - exists (NilZero.string_of_uint (Pos.to_uint p)).
    split; [apply digits1_string_of_uint | reflexivity].
  - exists (NilZero.string_of_uint (Pos.to_uint p)).
    split; [apply digits1_string_of_uint | reflexivity].
Qed.

Lemma digits1_first d :
  digits1 d = true ->
  exists c r, d = String c r /\ isDigit c = true /\ allDigits r = true.
Proof.
  destruct d as [|c r]; [discriminate|]. cbn [digits1 allDigits].
  intros [Hc Hr]%andb_prop. eauto.
Qed.

Lemma isDigit_not_sign c : isDigit c = true -> isSign c = false.
Proof.
  destruct c as [[] [] [] [] [] [] [] []]; intros H;
    first [discriminate H | reflexivity].
Qed.

Lemma digits1_dropSign d : digits1 d = true -> dropSign d = d.
Proof.
  intros (c & r & -> & Hc & _)%digits1_first. cbn [dropSign].
  rewrite (isDigit_not_sign c Hc). reflexivity.
Qed.

Lemma digits1_unsignedNumeric d : digits1 d = true -> unsignedNumeric d = true.
Proof.
  intros Hd. unfold unsignedNumeric.
  destruct (takeDigits_allDigits d (digits1_allDigits d Hd)) as [_ ->].
  exact Hd.
Qed.

Lemma decimal_checks n :
  isInt (decimal n) = true
  /\ isNumeric (decimal n) = true
  /\ isEmpty (decimal n) = false.
Proof.
  destruct (decimal_shape n) as (d & Hd & ->).
  pose proof (digits1_dropSign d Hd) as Hdrop.
  pose proof (digits1_unsignedNumeric d Hd) as Hnum.
  destruct (n <? 0).
  - repeat split; [exact Hd | exact Hnum].
  - unfold isInt. change (isNumeric d) with (unsignedNumeric (dropSign d)).
    rewrite Hdrop. repeat split; [exact Hd | exact Hnum |].
    destruct d; [discriminate Hd | reflexivity].
Qed.

Lemma numeralFrom_step c k acc r :
  digitValue c = Some k -> (k <? 10)%N = true ->
  numeralFrom 10 acc (String c r) = numeralFrom 10 (acc * 10 + k) r.
Proof. intros Hc Hk. cbn [numeralFrom]. rewrite Hc, Hk. reflexivity. Qed.

Ltac decimal_digit IH :=
  cbn [NilEmpty.string_of_uint Pos.of_uint_acc Pos.of_uint];
  erewrite numeralFrom_step by reflexivity;
  match goal with
  | |- numeralFrom 10 ?a _ = Some (N.pos (Pos.of_uint_acc _ ?q)) =>
      replace a with (N.pos q) by (cbn; lia); apply IH
  end.

Lemma numeralFrom_of_uint_acc d : forall p,
  numeralFrom 10 (Npos p) (NilEmpty.string_of_uint d)
  = Some (Npos (Pos.of_uint_acc d p)).
Proof.
  induction d as [|d IH|d IH|d IH|d IH|d IH|d IH|d IH|d IH|d IH|d IH];
    intros p; [reflexivity | decimal_digit IH ..].
Qed.

Lemma numeralFrom_of_uint d :
  numeralFrom 10 0 (NilEmpty.string_of_uint d) = Some (Pos.of_uint d).
Proof.
  induction d as [|d IH|d IH|d IH|d IH|d IH|d IH|d IH|d IH|d IH|d IH];
    [reflexivity | exact IH | decimal_digit numeralFrom_of_uint_acc ..].
Qed.

Lemma numeral_to_uint p :
  numeral 10 (NilZero.string_of_uint (Pos.to_uint p)) = Some (Npos p).
Proof.
  pose proof (Unsigned.to_uint_nonnil p) as Hnil.
  pose proof (numeralFrom_of_uint (Pos.to_uint p)) as H.
  rewrite Unsigned.of_to in H.
  destruct (Pos.to_uint p) as [|d|d|d|d|d|d|d|d|d|d];
    [congruence | exact H ..].
Qed.

Lemma intOfString_digits d :
  digits1 d = true -> intOfString d = Z.of_N <$> numeral 10 d.
Proof.
  intros (c & r & -> & Hc & _)%digits1_first. unfold intOfString.
  destruct c as [[] [] [] [] [] [] [] []];
    first [discriminate Hc | reflexivity].
Qed.

Lemma intOfString_decimal n : intOfString (decimal n) = Some n.
Proof.
  unfold decimal. destruct n as [|p|p]; cbn [Z.to_int].
  - reflexivity.
  - cbn [NilZero.string_of_int].
    rewrite (intOfString_digits _ (digits1_string_of_uint _)).
    rewrite numeral_to_uint. reflexivity.
  - cbn [NilZero.string_of_int intOfString].
    rewrite numeral_to_uint. reflexivity.
Qed.

Lemma isBoolean_true s :
  isBoolean s = true -> s = "true" \/ s = "false" \/ s = "1" \/ s = "0".
Proof.
  unfold isBoolean. cbn [existsb]. rewrite !orb_true_iff, !String.eqb_eq.
  intros [H | [H | [H | [H | H]]]]; auto. discriminate H.
Qed.

Lemma isBoolean_decimal n : isBoolean (decimal n) = true -> n = 1 \/ n = 0.
Proof.
  intros H. pose proof (intOfString_decimal n) as Hn.
  destruct (isBoolean_true _ H) as [E | [E | [E | E]]];
    rewrite E in Hn; first [discriminate Hn | inversion Hn; auto].
Qed.

(** Up to 2^53 the text of a number is its decimal numeral. *)
Lemma numberToString_safe n :
  safeInteger n -> numberToString n = decimal n.
Proof.
  unfold safeInteger, numberToString. intros H%Z.leb_le. rewrite H.
  reflexivity.
Qed.

Lemma spacingExponent_le d : 0 < d -> 2 ^ spacingExponent d <= d.
Proof.
  intros Hd. unfold spacingExponent.
  destruct (Z.log2_spec d Hd) as [Hlow _].
  pose proof (Z.log2_nonneg d) as Hlog.
  apply Z.le_trans with (2 ^ Z.log2 d); [|exact Hlow].
  apply Z.pow_le_mono_r; lia.
Qed.

Lemma pick_roundsTo d p c : pick d p = Some c -> roundsTo d c = true.
Proof.
  unfold pick.
  destruct (roundsTo d (d / p * p)) eqn:Hlow,
           (roundsTo d (d / p * p + p)) eqn:Hhigh;
    repeat match goal with
      | |- context [if ?b then _ else _] => destruct b
      end;
    intros [= <-]; assumption.
Qed.

Lemma shortestFrom_roundsTo d zeros :
  shortestFrom d zeros = d \/ roundsTo d (shortestFrom d zeros) = true.
Proof.
  induction zeros as [|zeros IH]; cbn [shortestFrom].
  - destruct (pick d _) as [c|] eqn:Hc; [right; eapply pick_roundsTo, Hc | left; reflexivity].
  - destruct (pick d _) as [c|] eqn:Hc; [right; eapply pick_roundsTo, Hc | exact IH].
Qed.

Lemma roundsTo_lower d c : 4 <= d -> roundsTo d c = true -> 2 <= c.
Proof.
  intros Hd. unfold roundsTo.
  pose proof (spacingExponent_le d ltac:(lia)) as Hk.
  assert (Hnn : 0 <= spacingExponent d) by (unfold spacingExponent; lia).
  set (k := spacingExponent d) in *.
  assert (Hup : 2 ^ (k + 1) = 2 * 2 ^ k) by (rewrite Z.pow_add_r, Z.pow_1_r; lia).
  assert (Hpos : 0 < 2 ^ k) by (apply Z.pow_pos_nonneg; lia).
  rewrite Hup.
  destruct (d / 2 ^ k =? 2 ^ 52), (Z.even (d / 2 ^ k));
    intros [H _]%andb_prop;
    first [apply Z.leb_le in H | apply Z.ltb_lt in H]; lia.
Qed.

Lemma nearestDouble_lower a : 2 ^ 53 < a -> 4 <= nearestDouble a.
Proof.
  intros Ha. assert (Hpos : 0 < a) by lia.
  destruct (Z.log2_spec a Hpos) as [Hlow _].
  assert (Hlog : 53 <= Z.log2 a).
  { rewrite <- (Z.log2_pow2 53) by lia. apply Z.log2_le_mono. lia. }
  unfold nearestDouble, spacingExponent.
  replace (Z.max 0 (Z.log2 a - 52)) with (Z.log2 a - 52) by lia.
  set (k := Z.log2 a - 52) in *.
  assert (Hk : 2 <= 2 ^ k).
  { change 2 with (2 ^ 1) at 1. apply Z.pow_le_mono_r; lia. }
  assert (Hq : 2 <= a / 2 ^ k).
  { apply Z.div_le_lower_bound; [lia|].
    replace (2 ^ k * 2) with (2 ^ (k + 1)) by (rewrite Z.pow_add_r, Z.pow_1_r; lia).
    apply Z.le_trans with (2 ^ Z.log2 a); [|exact Hlow].
    apply Z.pow_le_mono_r; lia. }
  destruct (_ || _); nia.
Qed.

Lemma exponential_not_boolean c : isBoolean (exponential c) = false.
Proof.
  destruct (isBoolean (exponential c)) eqn:H; [|reflexivity].
  apply isBoolean_true in H. unfold exponential in H.
  destruct (decimal c) as [|a rest]; [intuition discriminate|].
  destruct (stripZeros rest); intuition discriminate.
Qed.

Lemma exponential_not_empty c : isEmpty (exponential c) = false.
Proof.
  unfold exponential. destruct (decimal_checks c) as (_ & _ & Hc).
  destruct (decimal c) as [|a rest]; [discriminate Hc|].
  destruct (stripZeros rest); reflexivity.
Qed.

Lemma printDouble_text d :
  4 <= d ->
  isBoolean (printDouble d) = false /\ isEmpty (printDouble d) = false.
Proof.
  intros Hd. unfold printDouble.
  set (c := shortestFrom d (String.length (decimal d))).
  assert (Hc : 2 <= c).
  { destruct (shortestFrom_roundsTo d (String.length (decimal d))) as [E | E];
      fold c in E; [lia | exact (roundsTo_lower d c Hd E)]. }
  destruct (c <? 10 ^ 21).
  - split; [|apply decimal_checks].
    destruct (isBoolean (decimal c)) eqn:H; [|reflexivity].
    apply isBoolean_decimal in H. lia.
  - split; [apply exponential_not_boolean | apply exponential_not_empty].
Qed.

(** Above 2^53 the text of a number is neither empty nor one of the four
    texts [isBoolean] accepts. *)
Lemma numberToString_large n :
  ~ safeInteger n ->
  isBoolean (numberToString n) = false /\ isEmpty (numberToString n) = false.
Proof.
  unfold safeInteger, numberToString. intros Hn.
  destruct (Z.abs n <=? 2 ^ 53) eqn:Hsafe; [apply Z.leb_le in Hsafe; lia|].
  apply Z.leb_gt in Hsafe.
  pose proof (nearestDouble_lower (Z.abs n) Hsafe) as Hd.
  destruct (printDouble_text _ Hd) as [Hb He].
  destruct (n <? 0).
  - split; [|reflexivity].
    destruct (isBoolean (String "-" _)) eqn:H; [|reflexivity].
    apply isBoolean_true in H. intuition discriminate.
  - destruct (2 ^ 1024 <=? _); [split; reflexivity | split; assumption].
Qed.

Lemma numberToString_not_empty n : isEmpty (numberToString n) = false.
Proof.
  destruct (Z_le_dec (Z.abs n) (2 ^ 53)) as [Hs | Hs].
  - rewrite (numberToString_safe n Hs). apply decimal_checks.
  - apply (numberToString_large n Hs).
Qed.

Lemma isBoolean_numberToString n :
  isBoolean (numberToString n) = true -> n = 1 \/ n = 0.
Proof.
  destruct (Z_le_dec (Z.abs n) (2 ^ 53)) as [Hs | Hs].
  - rewrite (numberToString_safe n Hs). apply isBoolean_decimal.
  - destruct (numberToString_large n Hs) as [-> _]. discriminate.
Qed.

(** ** The id check on decimal numerals *)

(** X1.  On GET, PATCH and DELETE [/:id] the decimal numeral of any integer,
    zero and the negative ones included, passes the id check: no validation
    error is left, whatever the body holds, and the handler that runs is the
    one the route declares. *)
Theorem integer_id_reaches_handler db t r n :
  url r = Item (decimal n) ->
  (method r = GET ->
   validationErrors (router r) r = []
   /\ invoked (dispatch db t r) = Some getProductByID) /\
  (method r = PATCH ->
   validationErrors (router r) r = []
   /\ invoked (dispatch db t r) = Some updateAvailability) /\
  (method r = DELETE ->
   validationErrors (router r) r = []
   /\ invoked (dispatch db t r) = Some deleteProduct).
Proof.
  intros Hu.
  destruct (decimal_checks n) as (Hint & _ & _).
  destruct (router_item r _ Hu) as (Hget & Hpatch & Hdelete).
  assert (Hroute : forall h,
    router r = [Validate idChain; HandleInputErrors; Handle h] ->
    validationErrors (router r) r = []
    /\ invoked (dispatch db t r) = Some h).
  { intros h Hr. split.
    - rewrite Hr. cbn [validationErrors].
      rewrite (runChain_id r _ Hu), Hint. reflexivity.
    - rewrite (dispatch_item db t r _ h Hr Hu), Hint. reflexivity. }
  split; [|split]; intros Hm;
    [ apply (Hroute _ (Hget Hm)) | apply (Hroute _ (Hpatch Hm))
    | apply (Hroute _ (Hdelete Hm)) ].
Qed.

(** ** The body rules on values that are not arrays *)

(** Of the values that are not arrays, the unprintable objects are the ones
    whose conversion to text raises. *)
Lemma toString_raises v :
  isArray v = false ->
  (if unprintable v then toString v = None
   else exists text, toString v = Some text).
Proof.
  intros Hv. destruct v as [[| b | n | s | l | fields]|]; cbn; eauto.
  - destruct b; eauto.
  - discriminate Hv.
  - destruct (getOwn "toString" fields) as [own|]; cbn; [|eauto].
    destruct (truthy own); cbn; eauto.
Qed.

Lemma runItems_standard loc f v validator negated m :
  isArray v = false ->
  runItem loc f v
    {| validation := StandardValidation validator negated; message := m |}
  = match toString v with
    | None => None
    | Some text =>
        Some (if (if negated then validator text else negb (validator text))
              then [{| location := loc; path := f; value := v; msg := m |}]
              else [])
    end.
Proof.
  intros Hv. unfold runItem. cbn [validation message].
  destruct v as [[]|]; try discriminate Hv; cbn [checkEach];
    match goal with |- context [toString ?x] => destruct (toString x) end;
    reflexivity.
Qed.

Lemma runOn_name v :
  isArray v = false ->
  runOn nameChain v
  = match toString v with
    | None => None
    | Some text => Some (if isEmpty text then [nameEmpty v] else [])
    end.
Proof.
  intros Hv. unfold runOn. cbn [nameChain]. cbn -[runItem toString].
  rewrite (runItems_standard _ _ v _ _ _ Hv).
  destruct (toString v) as [text|]; [|reflexivity].
  destruct (isEmpty text); reflexivity.
Qed.

Lemma runOn_price v :
  isArray v = false ->
  runOn priceChain v
  = match toString v with
    | None => None
    | Some text =>
        Some ((if isNumeric text then [] else [priceNotNumeric v])
              ++ (if isEmpty text then [priceEmpty v] else [])
              ++ (if greaterThanZero v then [] else [priceInvalid v]))%list
    end.
Proof.
  intros Hv. unfold runOn. cbn -[runItem toString greaterThanZero].
  rewrite !(runItems_standard _ _ v _ _ _ Hv).
  destruct (toString v) as [text|]; [|reflexivity].
  unfold runItem. cbn [validation message].
  destruct (isNumeric text), (isEmpty text), (greaterThanZero v); reflexivity.
Qed.

Lemma runOn_availability v :
  isArray v = false ->
  runOn availabilityChain v
  = match toString v with
    | None => None
    | Some text => Some (if isBoolean text then [] else [availabilityInvalid v])
    end.
Proof.
  intros Hv. unfold runOn. cbn -[runItem toString isBoolean].
  rewrite (runItems_standard _ _ v _ _ _ Hv).
  destruct (toString v) as [text|]; [|reflexivity].
  destruct (isBoolean text); reflexivity.
Qed.

Lemma isEmpty_true s : isEmpty s = true -> s = "".
Proof. destruct s; [reflexivity | discriminate]. Qed.

(** A value that prints as the empty text is [undefined], [null] or the
    empty string. *)
Lemma toString_empty v text :
  isArray v = false -> toString v = Some text -> isEmpty text = true ->
  v = None \/ v = Some JNull \/ v = Some (JStr "").
Proof.
  intros Hv Ht He. apply isEmpty_true in He. subst text.
  destruct v as [[| b | n | s | l | fields]|]; auto.
  - destruct b; discriminate Ht.
  - cbn in Ht. injection Ht as Ht.
    pose proof (numberToString_not_empty n) as Hn. rewrite Ht in Hn.
    discriminate Hn.
  - cbn in Ht. injection Ht as ->. auto.
  - discriminate Hv.
  - cbn in Ht. destruct (getOwn "toString" fields) as [own|];
      [destruct (truthy own)|]; discriminate Ht.
Qed.

(** X2.  On a value that is not an array the name rule reports its error
    exactly for a missing field, [null] and the empty string.  Every other
    value passes as a name, a number, a boolean or an object included,
    except an object whose own [toString] property is falsy: it cannot be
    turned into text and the run of the chain raises. *)
Theorem name_rule v :
  isArray v = false ->
  runOn nameChain v
  = if unprintable v then None
    else Some match v with
              | None | Some JNull | Some (JStr EmptyString) => [nameEmpty v]
              | Some _ => []
              end.
Proof.
  intros Hv. rewrite (runOn_name v Hv).
  pose proof (toString_raises v Hv) as Hraise.
  destruct (unprintable v); [rewrite Hraise; reflexivity|].
  destruct Hraise as [text Ht]. rewrite Ht. f_equal.
  destruct (isEmpty text) eqn:He.
  - destruct (toString_empty v text Hv Ht He) as [-> | [-> | ->]]; reflexivity.
  - destruct v as [[| b | n | s | l | fields]|];
      first [ reflexivity
            | cbn in Ht; injection Ht as <-; discriminate He
            | idtac ].
    cbn in Ht. injection Ht as <-. destruct s; [discriminate He | reflexivity].
Qed.

(** X3.  A price that is an integer of magnitude up to 2^53 is accepted
    exactly when it is above zero; zero and the negative ones get the single
    error "El precio del producto no es válido", never the numeric or the
    presence error. *)
Theorem price_number n :
  safeInteger n ->
  runOn priceChain (Some (JNum n))
  = Some (if 0 <? n then [] else [priceInvalid (Some (JNum n))]).
Proof.
  intros Hn. rewrite (runOn_price (Some (JNum n)) eq_refl).
  cbn [toString jsString]. rewrite (numberToString_safe n Hn).
  destruct (decimal_checks n) as (_ & -> & ->).
  cbn [greaterThanZero app]. destruct (0 <? n); reflexivity.
Qed.

(** X4.  On a price that is not an array the run of the three price rules
    raises exactly for an object whose own [toString] property is falsy.
    Otherwise it gives one of five answers, always in the declared order,
    and the presence error never comes without the other two. *)
Theorem price_chain_outcomes v :
  isArray v = false ->
  (runOn priceChain v = None <-> unprintable v = true) /\
  (forall errors,
     runOn priceChain v = Some errors ->
     In errors
        [ [];
          [priceInvalid v];
          [priceNotNumeric v];
          [priceNotNumeric v; priceInvalid v];
          [priceNotNumeric v; priceEmpty v; priceInvalid v] ]
     /\ (In (priceEmpty v) errors ->
         errors = [priceNotNumeric v; priceEmpty v; priceInvalid v])).
Proof.
  intros Hv. rewrite (runOn_price v Hv).
  pose proof (toString_raises v Hv) as Hraise.
  destruct (unprintable v).
  - rewrite Hraise. split; [tauto | discriminate].
  - destruct Hraise as [text Ht]. rewrite Ht.
    split; [split; discriminate|]. intros errors [= <-].
    destruct (isEmpty text) eqn:He.
    + assert (isNumeric text = false /\ greaterThanZero v = false) as [-> ->].
      { pose proof (isEmpty_true text He) as ->.
        destruct (toString_empty v "" Hv Ht He) as [-> | [-> | ->]];
          split; reflexivity. }
      cbn; tauto.
    + destruct (isNumeric text), (greaterThanZero v); cbn;
        (split; [tauto|]);
        intros H; repeat destruct H as [H | H]; try discriminate H;
        contradiction.
Qed.

(** X5.  On a value that is not an array the availability rule of the PUT
    route accepts the two booleans, the numbers 1 and 0 and the strings
    ["true"], ["false"], ["1"] and ["0"], and nothing else: a missing field
    is rejected. *)
Theorem availability_rule v :
  isArray v = false ->
  (runOn availabilityChain v = Some [] <->
   In v [ Some (JBool true); Some (JBool false); Some (JNum 1); Some (JNum 0);
          Some (JStr "true"); Some (JStr "false"); Some (JStr "1");
          Some (JStr "0") ]).
Proof.
  intros Hv. rewrite (runOn_availability v Hv). split.
  - destruct (toString v) as [text|] eqn:Ht; [|discriminate].
    destruct (isBoolean text) eqn:Hb; [intros _ | discriminate].
    destruct v as [[| b | n | s | l | fields]|]; cbn in Ht;
      try (injection Ht as <-); try discriminate Hb.
    + destruct b; cbn; tauto.
    + destruct (isBoolean_numberToString n Hb) as [-> | ->]; cbn; tauto.
    + destruct (isBoolean_true _ Hb) as [-> | [-> | [-> | ->]]]; cbn; tauto.
    + discriminate Hv.
    + destruct (getOwn "toString" fields) as [own|];
        [destruct (truthy own)|]; try discriminate Ht;
        injection Ht as <-; discriminate Hb.
  - intros H. repeat destruct H as [<- | H]; try reflexivity. contradiction.
Qed.

(** ** Price strings that pass *)

Lemma unsignedDecimal_finite negative r :
  unsignedNumeric r = true ->
  exists m e, unsignedDecimal negative r = Finite negative m e.
Proof.
  intros H. pose proof (unsignedNumeric_numericText r H) as Htext.
  unfold unsignedDecimal.
  destruct (String.eqb_spec r "Infinity") as [-> | _]; [discriminate Htext|].
  unfold unsignedNumeric in H.
  destruct (skipDigits r) as [|d rest] eqn:Hskip.
  - rewrite (skipDigits_takeDigits r Hskip).
    destruct r as [|c r]; [discriminate H|]. cbn [isEmpty andb].
    destruct (numeralFrom_total (String c r ++ "") 0%N) as [n ->].
    { apply allDigits_append; [exact H | reflexivity]. }
    cbn. eauto.
  - assert (d = "."%char /\ digits1 rest = true) as [-> Hfrac].
    { destruct d as [[] [] [] [] [] [] [] []];
        first [discriminate H | split; [reflexivity | exact H]]. }
    pose proof (digits1_allDigits rest Hfrac) as Hall.
    destruct (takeDigits_allDigits rest Hall) as [-> ->].
    destruct rest as [|c rest]; [discriminate Hfrac|].
    rewrite andb_false_r.
    destruct (numeralFrom_total (takeDigits r ++ String c rest) 0%N) as [n ->].
    { apply allDigits_append; [apply allDigits_takeDigits | exact Hall]. }
    cbn. eauto.
Qed.

Lemma isNumeric_numericText s : isNumeric s = true -> numericText s = true.
Proof.
  intros H. change (unsignedNumeric (dropSign s) = true) in H.
  destruct s as [|c r]; [reflexivity|]. cbn [dropSign] in H.
  destruct (isSign c) eqn:Hc.
  - cbn [numericText]. unfold numericChar. rewrite Hc, orb_true_r.
    cbn. apply unsignedNumeric_numericText, H.
  - apply unsignedNumeric_numericText, H.
Qed.

(** What passes [isNumeric] is a finite decimal for JavaScript, negative
    exactly when it starts with a minus sign. *)
Lemma isNumeric_finite s :
  isNumeric s = true ->
  exists m e,
    stringToNumber s
    = Finite (match s with String "-"%char _ => true | _ => false end) m e.
Proof.
  intros H. pose proof (isNumeric_numericText s H) as Htext.
  change (unsignedNumeric (dropSign s) = true) in H.
  unfold stringToNumber. rewrite (trim_numericText s Htext).
  destruct s as [|c r]; [discriminate H|].
  rewrite (nonDecimal_numericText _ Htext). cbn [dropSign] in H.
  destruct (Ascii.eqb_spec c "-") as [-> | Hminus].
  - apply unsignedDecimal_finite, H.
  - destruct (Ascii.eqb_spec c "+") as [-> | Hplus].
    + apply unsignedDecimal_finite, H.
    + destruct (isSign c) eqn:Hc.
      * destruct c as [[] [] [] [] [] [] [] []];
          first [discriminate Hc | congruence].
      * destruct (unsignedDecimal_finite false _ H) as (m & e & ->).
        exists m, e. f_equal.
        destruct c as [[] [] [] [] [] [] [] []];
          first [reflexivity | congruence].
Qed.

Lemma roundsAboveZero_positive m e :
  roundsAboveZero m e = true -> (0 < m)%N.
Proof.
  unfold roundsAboveZero. destruct (0 <=? e) eqn:He.
  - intros H%Z.ltb_lt. lia.
  - intros H%Z.ltb_lt. apply Z.leb_gt in He.
    assert (0 < 10 ^ (- e)) by (apply Z.pow_pos_nonneg; lia).
    assert (0 < 2 ^ 1075) by (apply Z.pow_pos_nonneg; lia).
    destruct m; [lia | lia].
Qed.

(** X6.  A string is accepted as price exactly when it passes [isNumeric]
    and JavaScript reads it as a finite decimal above zero.  Such a string
    never starts with a minus sign, and texts that fail [isNumeric] (an
    exponent form, a hexadecimal numeral, ["Infinity"], a numeral with
    white space around it) are never accepted. *)
Theorem price_string_accepted s :
  runOn priceChain (Some (JStr s)) = Some [] <->
  isNumeric s = true
  /\ (forall r, s <> String "-" r)
  /\ exists m e,
       stringToNumber s = Finite false m e
       /\ (0 < m)%N /\ roundsAboveZero m e = true.
Proof.
  rewrite (runOn_price (Some (JStr s)) eq_refl). cbn [toString jsString].
  split.
  - destruct (isNumeric s) eqn:Hn; [|discriminate].
    destruct (isEmpty s); [discriminate|].
    destruct (greaterThanZero (Some (JStr s))) eqn:Hg; [intros _ | discriminate].
    split; [reflexivity|].
    destruct (isNumeric_finite s Hn) as (m & e & Hfin).
    unfold greaterThanZero in Hg. cbn [jsString] in Hg. rewrite Hfin in Hg.
    cbn [isPositive] in Hg. apply andb_prop in Hg as [Hneg Hround].
    split.
    + intros r ->. discriminate Hneg.
    + exists m, e. rewrite Hfin.
      destruct (match s with String "-"%char _ => true | _ => false end);
        [discriminate Hneg|].
      split; [reflexivity | split; [|exact Hround]].
      apply (roundsAboveZero_positive m e Hround).
  - intros (-> & _ & m & e & Hfin & Hm & Hround).
    assert (isEmpty s = false) as ->.
    { destruct s; [|reflexivity]. inversion Hfin; subst m. lia. }
    unfold greaterThanZero. cbn [jsString]. rewrite Hfin. cbn [isPositive negb andb].
    rewrite Hround. reflexivity.
Qed.

(** ** Routes as a whole *)

Lemma runStack_guarded db t r h cs : forall errors,
  runStack db t r errors (map Validate cs ++ [HandleInputErrors; Handle h])
  = if routeThrows (map Validate cs ++ [HandleInputErrors; Handle h]) r
    then failed t
    else
      match (errors
             ++ validationErrors
                  (map Validate cs ++ [HandleInputErrors; Handle h]) r)%list
      with
      | [] => handled h (fst (runHandler db h t r)) (snd (runHandler db h t r))
      | e :: rest => rejected t (e :: rest)
      end.
Proof.
  induction cs as [|c cs IH]; intros errors.
  - cbn [map app runStack validationErrors routeThrows]. rewrite app_nil_r.
    destruct errors; cbn [handleInputErrors]; [|reflexivity].
    destruct (runHandler db h t r); reflexivity.
  - cbn [map app runStack validationErrors routeThrows].
    destruct (runChain c r) as [found|]; [|reflexivity].
    rewrite IH, <- app_assoc. reflexivity.
Qed.

Lemma handlerOf_guarded h cs :
  handlerOf (map Validate cs ++ [HandleInputErrors; Handle h]) = Some h.
Proof. induction cs as [|c cs IH]; [reflexivity | exact IH]. Qed.

(** Every route is the listing, or chains followed by [handleInputErrors]
    and a handler. *)
Lemma router_shape r :
  router r = []
  \/ router r = [Handle getProducts]
  \/ exists cs h,
       router r = (map Validate cs ++ [HandleInputErrors; Handle h])%list.
Proof.
  unfold router. destruct (method r), (url r); auto; right; right.
  - exists [idChain], getProductByID. reflexivity.
  - exists [nameChain; priceChain], createProduct. reflexivity.
  - exists [idChain; nameChain; priceChain; availabilityChain], updateProduct.
    reflexivity.
  - exists [idChain], updateAvailability. reflexivity.
  - exists [idChain], deleteProduct. reflexivity.
Qed.

(** X7.  Every route ends in one of three ways.  If the run of one of its
    chains raised, the request ends with the 500 of Express, no handler runs
    and the table is as it was.  Otherwise, if any chain left an error, the
    request is answered 400 with the errors of all its chains in declared
    order, no handler runs and the table is as it was; and if none did, the
    handler of the route is the one that runs (none when no route is
    declared for the method and path). *)
Theorem route_rejects_or_runs db t r :
  (routeThrows (router r) r = true -> dispatch db t r = failed t) /\
  (routeThrows (router r) r = false ->
   (validationErrors (router r) r <> [] ->
    dispatch db t r = rejected t (validationErrors (router r) r)) /\
   (validationErrors (router r) r = [] ->
    invoked (dispatch db t r) = handlerOf (router r))).
Proof.
  unfold dispatch.
  destruct (router_shape r) as [-> | [-> | (cs & h & ->)]].
  - split; [discriminate|]. intros _.
    split; [intros H; contradiction H; reflexivity | reflexivity].
  - split; [discriminate|]. intros _.
    split; [intros H; contradiction H; reflexivity |].
    intros _. cbn [runStack]. destruct (runHandler _ _ _ _); reflexivity.
  - rewrite runStack_guarded, handlerOf_guarded. cbn [app].
    split; intros ->; [reflexivity|].
    destruct (validationErrors _ r) as [|e rest].
    + split; [intros H; contradiction H; reflexivity | reflexivity].
    + split; [reflexivity | discriminate].
Qed.

Lemma checkEach_entry validator negated error values : forall errors e,
  checkEach validator negated error values = Some errors ->
  In e errors -> exists x, e = error x.
Proof.
  induction values as [|x rest IH]; intros errors e.
  - intros [= <-] [].
  - cbn [checkEach]. destruct (toString x) as [text|]; [|discriminate].
    destruct (checkEach validator negated error rest) as [more|];
      [|discriminate].
    intros [= <-].
    destruct (if negated then _ else _); [intros [<- | H] | intros H];
      eauto.
Qed.

(** An error of a chain carries the location and field of the chain and the
    message of one of its validators. *)
Lemma runItems_entry loc f v items : forall errors e,
  runItems loc f v items = Some errors ->
  In e errors ->
  exists it, In it items /\ entry e = (loc, f, message it).
Proof.
  induction items as [|it rest IH]; intros errors e.
  - intros [= <-] [].
  - cbn [runItems]. destruct (runItem loc f v it) as [found|] eqn:Hit;
      [|discriminate].
    destruct (runItems loc f v rest) as [more|]; [|discriminate].
    intros [= <-] [He | He]%in_app_or.
    + exists it. split; [left; reflexivity|]. unfold runItem in Hit.
      destruct (validation it) as [validator negated | validator].
      * destruct (checkEach_entry _ _ _ _ _ e Hit He) as [x ->]. reflexivity.
      * injection Hit as <-. destruct (validator v); [contradiction He|].
        destruct He as [<- | []]. reflexivity.
    + destruct (IH more e eq_refl He) as (it' & Hin & Hentry).
      exists it'. split; [right; exact Hin | exact Hentry].
Qed.

Lemma chain_entries c r found e :
  In c [idChain; nameChain; priceChain; availabilityChain] ->
  runChain c r = Some found ->
  In e found ->
  In (entry e) declaredEntries.
Proof.
  intros Hc Hrun He.
  destruct (runItems_entry _ _ _ _ _ e Hrun He) as (it & Hit & ->).
  destruct Hc as [<- | [<- | [<- | [<- | []]]]]; cbn in Hit;
    repeat destruct Hit as [<- | Hit]; try contradiction; cbn; tauto.
Qed.

Lemma validationErrors_in stages r e :
  In e (validationErrors stages r) ->
  exists c found,
    In (Validate c) stages /\ runChain c r = Some found /\ In e found.
Proof.
  induction stages as [|stage rest IH]; [intros []|].
  destruct stage as [c | | h]; cbn [validationErrors].
  - destruct (runChain c r) as [found|] eqn:Hrun; [|intros []].
    intros [He | He]%in_app_or.
    + exists c, found. split; [left; reflexivity | split; [exact Hrun | exact He]].
    + destruct (IH He) as (c' & found' & Hin & H). exists c', found'.
      split; [right; exact Hin | exact H].
  - intros He. destruct (IH He) as (c' & found' & Hin & H). exists c', found'.
    split; [right; exact Hin | exact H].
  - intros He. destruct (IH He) as (c' & found' & Hin & H). exists c', found'.
    split; [right; exact Hin | exact H].
Qed.

Lemma router_chains r c :
  In (Validate c) (router r) ->
  In c [idChain; nameChain; priceChain; availabilityChain].
Proof.
  unfold router. destruct (method r), (url r); intros H;
    repeat destruct H as [H | H]; try discriminate H; try contradiction;
    injection H as <-; cbn; tauto.
Qed.

(** X8.  Whatever the request, every error entry a route reports has one
    of the six messages that [router.ts] attaches with [withMessage], under
    the field and location the message was declared for; the default message
    of the validation library is never reported. *)
Theorem declared_messages r e :
  In e (validationErrors (router r) r) ->
  In (entry e) declaredEntries /\ msg e <> "Invalid value".
Proof.
  intros He.
  assert (Hin : In (entry e) declaredEntries).
  { destruct (validationErrors_in _ r e He) as (c & found & Hc & Hrun & Hfound).
    exact (chain_entries c r found e (router_chains r c Hc) Hrun Hfound). }
  split; [exact Hin|]. intros Hmsg. unfold entry in Hin. rewrite Hmsg in Hin.
  cbn in Hin. repeat destruct Hin as [Hin | Hin]; try discriminate Hin.
  contradiction.
Qed.

Lemma runItem_length loc f v it errors :
  isArray v = false ->
  runItem loc f v it = Some errors -> (length errors <= 1)%nat.
Proof.
  intros Hv. unfold runItem.
  destruct (validation it) as [validator negated | validator].
  - assert (match v with Some (JArr items) => Some <$> items | _ => [v] end
            = [v]) as ->.
    { destruct v as [[]|]; try reflexivity. discriminate Hv. }
    cbn [checkEach]. destruct (toString v); [|discriminate].
    intros [= <-]. destruct (if negated then _ else _); cbn; lia.
  - intros [= <-]. destruct (validator v); cbn; lia.
Qed.

Lemma runItems_length loc f v items : forall errors,
  isArray v = false ->
  runItems loc f v items = Some errors -> (length errors <= length items)%nat.
Proof.
  induction items as [|it rest IH]; intros errors Hv.
  - intros [= <-]. reflexivity.
  - cbn [runItems]. destruct (runItem loc f v it) as [found|] eqn:Hit;
      [|discriminate].
    destruct (runItems loc f v rest) as [more|]; [|discriminate].
    intros [= <-]. rewrite length_app. cbn [length].
    pose proof (runItem_length loc f v it found Hv Hit).
    pose proof (IH more Hv eq_refl). lia.
Qed.

(** The errors a chain leaves on the request, none when its run raised. *)
Lemma runChain_length c r bound :
  isArray (selectField (chainLocation c) (field c) r) = false ->
  length (stack c) = bound ->
  match runChain c r with
  | Some found => (length found <= bound)%nat
  | None => True
  end.
Proof.
  intros Hv <-. unfold runChain, runOn.
  destruct (runItems _ _ _ (stack c)) as [found|] eqn:Hrun; [|exact I].
  exact (runItems_length _ _ _ _ found Hv Hrun).
Qed.

Lemma selectField_id r : isArray (selectField InParams "id" r) = false.
Proof.
  unfold selectField. destruct (params r "id"); reflexivity.
Qed.

(** X9.  When [name], [price] and [availability] are not arrays, a POST is
    answered with at most 4 error entries, a PUT with at most 6, the other
    [/:id] routes with at most 1; the listing and undeclared routes report
    none. *)
Theorem error_count_bound r :
  isArray (body r !! "name") = false ->
  isArray (body r !! "price") = false ->
  isArray (body r !! "availability") = false ->
  (length (validationErrors (router r) r) <= errorBound r)%nat.
Proof.
  intros Hn Hp Ha.
  pose proof (runChain_length idChain r 1 (selectField_id r) eq_refl) as Hid.
  pose proof (runChain_length nameChain r 1 Hn eq_refl) as Hname.
  pose proof (runChain_length priceChain r 3 Hp eq_refl) as Hprice.
  pose proof (runChain_length availabilityChain r 1 Ha eq_refl) as Havail.
  unfold errorBound, router.
  destruct (method r), (url r); cbn [validationErrors length]; try lia;
    repeat match goal with
           | |- context [match runChain ?c r with _ => _ end] =>
               destruct (runChain c r)
           end;
    rewrite ?length_app; cbn [length]; lia.
Qed.

(** ** Requests that pass *)

Lemma runOn_price_positive n :
  safeInteger n -> 0 < n -> runOn priceChain (Some (JNum n)) = Some [].
Proof.
  intros Hn Hpos. rewrite (runOn_price (Some (JNum n)) eq_refl).
  cbn [toString jsString]. rewrite (numberToString_safe n Hn).
  destruct (decimal_checks n) as (_ & -> & ->).
  cbn [greaterThanZero app]. apply Z.ltb_lt in Hpos. rewrite Hpos.
  reflexivity.
Qed.

(** X10.  A POST whose [name] is a non-empty string and whose [price] is an
    integer above zero and at most 2^53 leaves no validation error, whatever
    else the body holds, and reaches [createProduct]. *)
Theorem valid_create_runs db t r s n :
  method r = POST ->
  url r = Root ->
  body r !! "name" = Some (JStr s) ->
  s <> "" ->
  body r !! "price" = Some (JNum n) ->
  0 < n ->
  safeInteger n ->
  routeThrows (router r) r = false
  /\ validationErrors (router r) r = []
  /\ invoked (dispatch db t r) = Some createProduct.
Proof.
  intros Hm Hu Hn Hs Hp Hpos Hsafe.
  pose proof (runOn_price_positive n Hsafe Hpos) as Hprice.
  repeat split.
  - unfold router. rewrite Hm, Hu. cbn [routeThrows].
    rewrite runChain_name, runChain_price, Hn, Hp, (runOn_name_string s Hs).
    rewrite Hprice. reflexivity.
  - unfold router. rewrite Hm, Hu. cbn [validationErrors].
    rewrite runChain_name, runChain_price, Hn, Hp, (runOn_name_string s Hs).
    rewrite Hprice. reflexivity.
  - rewrite (dispatch_post db t r Hm Hu), Hn, Hp, (runOn_name_string s Hs).
    rewrite Hprice. reflexivity.
Qed.

(** X11.  A PUT whose [name] is a non-empty string, whose [price] is an
    integer above zero and at most 2^53 and whose [availability] is a
    boolean is decided by its id alone: with an id that passes [isInt] it
    reaches [updateProduct]; otherwise it is answered 400 with the id error
    as the only entry. *)
Theorem valid_update_decided_by_id db t r i s n b :
  method r = PUT ->
  url r = Item i ->
  body r !! "name" = Some (JStr s) ->
  s <> "" ->
  body r !! "price" = Some (JNum n) ->
  0 < n ->
  safeInteger n ->
  body r !! "availability" = Some (JBool b) ->
  (isInt i = true -> invoked (dispatch db t r) = Some updateProduct) /\
  (isInt i = false -> dispatch db t r = rejected t [idError i]).
Proof.
  intros Hm Hu Hn Hs Hp Hpos Hsafe Ha.
  assert (Hbody : updateBodyRun r = Some []).
  { unfold updateBodyRun.
    rewrite runChain_name, runChain_price, runChain_availability, Hn, Hp, Ha.
    rewrite (runOn_name_string s Hs), (runOn_price_positive n Hsafe Hpos).
    destruct b; reflexivity. }
  rewrite (dispatch_put db t r i Hm Hu), Hbody.
  split; intros ->; reflexivity.
Qed.

(** ** The gate and the entry point *)

(** X12.  A request under [/api/products] reaches the router exactly when
    its [Origin] equals [FRONTEND_URL], it is not a preflight and
    [express.json()] did not give its body up, and the router then sees it
    unchanged.  With [FRONTEND_URL] unset the requests that carry no
    [Origin] header are the ones the gate lets through, and every request
    that carries one is refused. *)
Theorem cors_lets_through env db t inc :
  (forall o,
     server env db t inc = Routed o <->
     origin inc = FRONTEND_URL env
     /\ method (request inc) <> OPTIONS
     /\ bodyError inc = None
     /\ o = dispatch db t (request inc)) /\
  (FRONTEND_URL env = None ->
   (server env db t inc = Refused "Error de cors" <-> origin inc <> None)).
Proof.
  unfold server, corsOrigin. split.
  - intros o.
    destruct (decide (origin inc = FRONTEND_URL env)) as [Heq | Hne];
      cbn [called].
    + destruct (method (request inc)), (bodyError inc) as [status|]; split;
        first [ intros [= <-]; repeat split; [exact Heq | discriminate]
              | intros (_ & _ & _ & ->); reflexivity
              | discriminate
              | intros (_ & _ & H & _); discriminate H
              | intros (_ & H & _); contradiction H; reflexivity ].
    + split; [discriminate | intros (H & _); contradiction].
  - intros Hunset. rewrite Hunset.
    destruct (decide (origin inc = None)) as [Heq | Hne]; cbn [called].
    + destruct (method (request inc)), (bodyError inc); split;
        first [discriminate | intros H; contradiction].
    + split; [intros _; exact Hne | reflexivity].
Qed.

Lemma append_inj_l p a b : p ++ a = p ++ b -> a = b.
Proof.
  induction p as [|c p IH]; [exact (fun H => H)|].
  change (String c (p ++ a) = String c (p ++ b) -> a = b).
  intros [= H]. apply IH, H.
Qed.

(** X13.  The server always listens on port 4000; the line it logs names
    that port only when [PORT] is unset, empty or the text ["4000"].  With
    any other value of [PORT] the line names a port the server does not
    listen on. *)
Theorem banner_names_listening_port PORT :
  banner PORT = "REst API en port " ++ numberToString listening <->
  PORT = None \/ PORT = Some "" \/ PORT = Some "4000".
Proof.
  unfold banner. split.
  - intros H%append_inj_l. destruct PORT as [[|c s]|]; auto.
    change (String c s = numberToString listening) in H.
    right; right. rewrite H. reflexivity.
  - intros [-> | [-> | ->]]; reflexivity.
Qed.

(** ** The further properties on concrete requests *)

Lemma integer_id_reaches_handler_witness :
  validationErrors (router (req DELETE (Item "-7") [])) (req DELETE (Item "-7") [])
  = []
  /\ invoked (dispatch memory ∅ (req DELETE (Item "-7") [])) = Some deleteProduct.
Proof.
  destruct (integer_id_reaches_handler memory ∅ (req DELETE (Item "-7") []) (-7)
              eq_refl) as (_ & _ & H).
  exact (H eq_refl).
Defined.

Lemma name_rule_witness :
  isArray (Some (JNum 5)) = false
  /\ runOn nameChain (Some (JNum 5)) = Some []
  /\ runOn nameChain (Some (JObj [("toString", JNull)])) = None.
Proof.
  split; [reflexivity | split].
  - exact (name_rule (Some (JNum 5)) eq_refl).
  - exact (name_rule (Some (JObj [("toString", JNull)])) eq_refl).
Defined.

Lemma price_number_witness :
  safeInteger (-3)
  /\ runOn priceChain (Some (JNum (-3))) = Some [priceInvalid (Some (JNum (-3)))].
Proof.
  assert (H : safeInteger (-3)) by (vm_compute; discriminate).
  split; [exact H | exact (price_number (-3) H)].
Defined.

Lemma price_chain_outcomes_witness :
  isArray (Some (JStr "")) = false
  /\ runOn priceChain (Some (JObj [("toString", JBool false)])) = None
  /\ In [priceNotNumeric (Some (JStr "")); priceEmpty (Some (JStr ""));
         priceInvalid (Some (JStr ""))]
        [ [];
          [priceInvalid (Some (JStr ""))];
          [priceNotNumeric (Some (JStr ""))];
          [priceNotNumeric (Some (JStr "")); priceInvalid (Some (JStr ""))];
          [priceNotNumeric (Some (JStr "")); priceEmpty (Some (JStr ""));
           priceInvalid (Some (JStr ""))] ].
Proof.
  split; [reflexivity | split].
  - destruct (price_chain_outcomes (Some (JObj [("toString", JBool false)]))
                eq_refl) as [[_ H] _].
    exact (H eq_refl).
  - destruct (price_chain_outcomes (Some (JStr "")) eq_refl) as [_ H].
    destruct (H _ eq_refl) as [Hin _]. exact Hin.
Defined.

Lemma availability_rule_witness :
  isArray (Some (JNum 1)) = false
  /\ runOn availabilityChain (Some (JNum 1)) = Some []
  /\ runOn availabilityChain None <> Some [].
Proof.
  split; [reflexivity | split].
  - apply (availability_rule (Some (JNum 1))); [reflexivity|].
    right; right; left; reflexivity.
  - intros H. apply (availability_rule None) in H; [|reflexivity].
    repeat destruct H as [H | H]; try discriminate H. contradiction.
Defined.

Lemma price_string_accepted_witness :
  runOn priceChain (Some (JStr "19.99")) = Some []
  /\ runOn priceChain (Some (JStr "-19.99")) <> Some [].
Proof.
  split.
  - apply (price_string_accepted "19.99").
    split; [reflexivity | split; [discriminate|]].
    exists 1999%N, (-2). split; [reflexivity | split; [lia | reflexivity]].
  - intros H. apply (price_string_accepted "-19.99") in H.
    destruct H as (_ & H & _). apply (H "19.99"). reflexivity.
Defined.

Lemma route_rejects_or_runs_witness :
  routeThrows (router (req POST Root [("name", JObj [("toString", JNull)])]))
    (req POST Root [("name", JObj [("toString", JNull)])]) = true
  /\ dispatch memory ∅ (req POST Root [("name", JObj [("toString", JNull)])])
     = failed ∅
  /\ validationErrors (router (req POST Root [])) (req POST Root []) <> []
  /\ dispatch memory ∅ (req POST Root [])
     = rejected ∅ (validationErrors (router (req POST Root [])) (req POST Root []))
  /\ invoked (dispatch memory ∅ (req GET Root [])) = Some getProducts.
Proof.
  assert (H : validationErrors (router (req POST Root [])) (req POST Root [])
              <> []) by (vm_compute; discriminate).
  split; [reflexivity | split; [|split; [exact H | split]]].
  - destruct (route_rejects_or_runs memory ∅
                (req POST Root [("name", JObj [("toString", JNull)])]))
      as [Hthrows _].
    exact (Hthrows eq_refl).
  - destruct (route_rejects_or_runs memory ∅ (req POST Root [])) as [_ Hruns].
    destruct (Hruns eq_refl) as [Hrejects _]. exact (Hrejects H).
  - destruct (route_rejects_or_runs memory ∅ (req GET Root [])) as [_ Hruns].
    destruct (Hruns eq_refl) as [_ Hhandler]. exact (Hhandler eq_refl).
Defined.

Lemma declared_messages_witness :
  In (idError "hola")
     (validationErrors (router (req DELETE (Item "hola") []))
        (req DELETE (Item "hola") []))
  /\ In (entry (idError "hola")) declaredEntries
  /\ msg (idError "hola") <> "Invalid value".
Proof.
  assert (H : In (idError "hola")
                (validationErrors (router (req DELETE (Item "hola") []))
                   (req DELETE (Item "hola") []))).
  { left; reflexivity. }
  split; [exact H|].
  apply (declared_messages (req DELETE (Item "hola") []) (idError "hola")), H.
Defined.

Lemma error_count_bound_witness :
  (length (validationErrors (router (req PUT (Item "x") []))
             (req PUT (Item "x") [])) <= 6)%nat.
Proof.
  apply (error_count_bound (req PUT (Item "x") [])); reflexivity.
Defined.

Lemma valid_create_runs_witness :
  safeInteger 100
  /\ invoked
       (dispatch memory ∅
          (req POST Root [("name", JStr "Mouse - Testing"); ("price", JNum 100)]))
     = Some createProduct.
Proof.
  assert (H : safeInteger 100) by (vm_compute; discriminate).
  split; [exact H|].
  destruct (valid_create_runs memory ∅
              (req POST Root
                 [("name", JStr "Mouse - Testing"); ("price", JNum 100)])
              "Mouse - Testing" 100)
    as (_ & _ & Hruns);
    first [reflexivity | discriminate | exact H | exact Hruns].
Defined.

Lemma valid_update_decided_by_id_witness :
  safeInteger 100
  /\ dispatch memory ∅
       (req PUT (Item "not-valid-url")
          [("name", JStr "Monitor Curvo Actualizado"); ("price", JNum 100);
           ("availability", JBool true)])
     = rejected ∅ [idError "not-valid-url"].
Proof.
  assert (H : safeInteger 100) by (vm_compute; discriminate).
  split; [exact H|].
  destruct (valid_update_decided_by_id memory ∅
              (req PUT (Item "not-valid-url")
                 [("name", JStr "Monitor Curvo Actualizado"); ("price", JNum 100);
                  ("availability", JBool true)])
              "not-valid-url" "Monitor Curvo Actualizado" 100 true)
    as (_ & Hrejects);
    first [reflexivity | discriminate | exact H | exact (Hrejects eq_refl)].
Defined.

Lemma cors_lets_through_witness :
  server {| FRONTEND_URL := None |} memory ∅
    {| origin := Some "http://localhost:5173"; request := req GET Root [];
       bodyError := None |}
  = Refused "Error de cors"
  /\ server {| FRONTEND_URL := None |} memory ∅ anonymous
     = Routed (dispatch memory ∅ (req GET Root []))
  /\ (forall o,
        server {| FRONTEND_URL := None |} memory ∅
          {| origin := None; request := req POST Root []; bodyError := Some 400 |}
        <> Routed o).
Proof.
  split; [|split].
  - apply (cors_lets_through {| FRONTEND_URL := None |} memory ∅
             {| origin := Some "http://localhost:5173";
                request := req GET Root []; bodyError := None |});
      [reflexivity | discriminate].
  - apply (cors_lets_through {| FRONTEND_URL := None |} memory ∅ anonymous).
    split; [reflexivity | split; [discriminate | split; reflexivity]].
  - intros o H.
    apply (cors_lets_through {| FRONTEND_URL := None |} memory ∅
             {| origin := None; request := req POST Root [];
                bodyError := Some 400 |}) in H.
    destruct H as (_ & _ & H & _). discriminate H.
Defined.

Lemma banner_names_listening_port_witness :
  banner (Some "8080") <> "REst API en port " ++ numberToString listening.
Proof.
  intros H. apply (banner_names_listening_port (Some "8080")) in H.
  destruct H as [H | [H | H]]; discriminate H.
Defined.

(** ** Numbers as JavaScript prints them *)

Example prints_safe_integer : numberToString (-250) = "-250".
Proof. reflexivity. Qed.

Example prints_nearest_double :
  numberToString (2 ^ 53 + 1) = "9007199254740992".
Proof. vm_compute. reflexivity. Qed.

Example prints_shortest_digits :
  numberToString (2 ^ 63) = "9223372036854776000".
Proof. vm_compute. reflexivity. Qed.

Example prints_exponent : numberToString (10 ^ 21) = "1e+21".
Proof. vm_compute. reflexivity. Qed.

Example prints_fraction_digits :
  numberToString (2 ^ 70) = "1.1805916207174113e+21".
Proof. vm_compute. reflexivity. Qed.

Example prints_infinity : numberToString (- 2 ^ 1024) = "-Infinity".
Proof. vm_compute. reflexivity. Qed.

(** A price from 10^21 on is printed with an exponent, which [isNumeric]
    does not read: the number, although above zero, is answered 400. *)
Example test_create_price_exponent :
  dispatch memory ∅
    (req POST Root [("name", JStr "Monitor"); ("price", JNum (10 ^ 21))])
  = rejected ∅ [priceNotNumeric (Some (JNum (10 ^ 21)))].
Proof. vm_compute. reflexivity. Qed.

(** An object whose own [toString] is [null] as name: the run of the name
    chain raises, and the request ends with the error page. *)
Example test_create_name_unprintable :
  response
    (dispatch memory ∅
       (req POST Root
          [("name", JObj [("toString", JNull)]); ("price", JNum 50)]))
  = Some {| status := 500; json := ErrorPage |}.
Proof. vm_compute. reflexivity. Qed.

(** The same property, when it holds something truthy, does not stop the
    name from being printed: the product is created. *)
Example test_create_name_object :
  invoked
    (dispatch memory ∅
       (req POST Root
          [("name", JObj [("toString", JNum 1)]); ("price", JNum 50)]))
  = Some createProduct.
Proof. vm_compute. reflexivity. Qed.
